(** * Moss growth prediction API: validation, framing, inference, assembly

    A shallow embedding of [predict.py] and of the request path of
    [main.py], and the properties of that pipeline.

    Conventions of the embedding:
    - a Python [float] is modelled by the rational number it denotes ([Q]);
      numeric equality ([==] in Python) is [Qeq], and [round] is rounding to
      the nearest decimal of the exact value, ties to even, without the
      final conversion of that decimal back to binary;
    - the regressor's prediction is a [numpy.float64], whose [round] is
      numpy's: [rint(x * 10**n) / 10**n] with the product rounded to a
      double ([np_round], [binary64]) and the quotient kept as the decimal
      it denotes, like the result of [round]; the exponent range of doubles
      is taken as unbounded (no overflow, no subnormal numbers);
    - a computation that touches the working directory or the console is a
      function of the [World] (the files on disk and the lines printed so
      far) returning an [outcome] (a value or a raised exception) and the
      new world;
    - the fitted scaler and regressor are objects produced outside of this
      repository: their methods are fields of [pyobj], functions of their
      argument that return a value or raise;
    - [None] results are [option]s: the all-[None] triple of [load_model]
      and the [(None, None)] pair of [predict_growth_days] are [None]. *)

From Stdlib Require Import QArith Qround Qabs Qpower ZArith String List Lia Lqa.
From stdpp Require Import base option list gmap strings pretty.

(** ** Numbers *)

Definition Qltb (x y : Q) : bool := negb (Qle_bool y x).
Definition Qgtb (x y : Q) : bool := Qltb y x.
Definition Qgeb (x y : Q) : bool := Qle_bool y x.

(** Nearest integer, a tie going to the even neighbour. *)
Definition round_half_even (x : Q) : Z :=
  let f := Qfloor x in
  match (x - inject_Z f ?= 1 # 2)%Q with
  | Lt => f
  | Gt => (f + 1)%Z
  | Eq => if Z.even f then f else (f + 1)%Z
  end.

(** Python's [round(x, ndigits)] on a float. *)
Definition round (x : Q) (ndigits : nat) : Q :=
  let p := inject_Z (10 ^ Z.of_nat ndigits) in
  (inject_Z (round_half_even (x * p)) / p)%Q.

(** The integer part of the binary logarithm of [|x|], for [x] not zero. *)
Definition ilog2 (x : Q) : Z :=
  let c := (Z.log2 (Z.abs (Qnum x)) - Z.log2 (Z.pos (Qden x)))%Z in
  if Qle_bool (2 ^ c) (Qabs x) then c else (c - 1)%Z.

(** The double nearest to [x]: 53 significant bits, ties to even. *)
Definition binary64 (x : Q) : Q :=
  if Qeq_bool x 0 then 0%Q
  else
    let ulp := (2 ^ (ilog2 x - 52))%Q in
    (inject_Z (round_half_even (x / ulp)) * ulp)%Q.

(** [round(x, decimals)] on a [numpy.float64]:
    [rint(x * 10**decimals) / 10**decimals], the product being a double. *)
Definition np_round (x : Q) (decimals : nat) : Q :=
  let p := inject_Z (10 ^ Z.of_nat decimals) in
  (inject_Z (round_half_even (binary64 (x * p))) / p)%Q.

(** ** Exceptions and effects *)

Inductive exn : Type :=
  | FileNotFoundError (filename : string)
  | ValueError (msg : string)
  | HTTPException (status_code : Z) (detail : string)
  | Exception (msg : string).

(** [str(e)] *)
Definition str (e : exn) : string :=
  match e with
  | FileNotFoundError filename =>
      "[Errno 2] No such file or directory: '" +:+ filename +:+ "'"
  | ValueError msg => msg
  | HTTPException status_code detail => pretty status_code +:+ ": " +:+ detail
  | Exception msg => msg
  end.

Inductive outcome (A : Type) : Type :=
  | Returned (a : A)
  | Raised (e : exn).
Arguments Returned {A} a.
Arguments Raised {A} e.

(** ** What the code uses of pandas and scikit-learn *)

Module PyLibs.

(** [pd.DataFrame]: column labels and rows of values. *)
Record DataFrame : Type := {
  columns : list string;
  values : list (list Q)
}.

(** [pd.DataFrame(data, columns=columns)] for a list of rows. *)
Definition DataFrame_new (data : list (list Q)) (cols : list string)
  : outcome DataFrame :=
  match List.find (λ row, negb (length row =? length cols)) data with
  | Some row =>
      Raised (ValueError (pretty (length cols) +:+ " columns passed, passed data had "
                          +:+ pretty (length row) +:+ " columns"))
  | None => Returned {| columns := cols; values := data |}
  end.

(** An unpickled object; an attribute it does not have is [None]. *)
Record pyobj : Type := {
  transform : option (DataFrame → outcome (list (list Q)));
  predict : option (list (list Q) → outcome (list Q))
}.

Definition call_transform (scaler : pyobj) (X : DataFrame)
  : outcome (list (list Q)) :=
  match transform scaler with
  | Some f => f X
  | None => Raised (Exception "AttributeError: object has no attribute 'transform'")
  end.

Definition call_predict (model : pyobj) (X : list (list Q)) : outcome (list Q) :=
  match predict model with
  | Some f => f X
  | None => Raised (Exception "AttributeError: object has no attribute 'predict'")
  end.

End PyLibs.

(** The metadata document [model_info.json]. *)
Record ModelInfo : Type := {
  features : list string;
  model_name : string;
  test_r2 : Q
}.

(** What a file of the working directory holds. *)
Inductive blob : Type :=
  | Pickle (o : PyLibs.pyobj)
  | JsonDoc (i : ModelInfo).

Record World : Type := {
  disk : gmap string blob;
  stdout : list string
}.

Definition Py (A : Type) : Type := World → outcome A * World.

#[global] Instance Py_ret : MRet Py := λ A a w, (Returned a, w).

#[global] Instance Py_bind : MBind Py := λ A B k m w,
  match m w with
  | (Returned a, w') => k a w'
  | (Raised e, w') => (Raised e, w')
  end.

Definition raise {A} (e : exn) : Py A := λ w, (Raised e, w).

(** A pure computation that may raise, run inside [Py]. *)
Definition lift {A} (o : outcome A) : Py A := λ w, (o, w).

(** [try: body except <classes chosen by handler>: handler e] *)
Definition try_except {A} (body : Py A) (handler : exn → option (Py A)) : Py A :=
  λ w, match body w with
       | (Returned a, w') => (Returned a, w')
       | (Raised e, w') =>
           match handler e with
           | Some h => h w'
           | None => (Raised e, w')
           end
       end.

Definition print (line : string) : Py unit :=
  λ w, (Returned tt, {| disk := disk w; stdout := stdout w ++ [line] |}).

(** [Path(file).exists()] *)
Definition path_exists (file : string) : Py bool :=
  λ w, (Returned (bool_decide (is_Some (disk w !! file))), w).

(** [joblib.load(path)] *)
Definition joblib_load (path : string) : Py PyLibs.pyobj :=
  λ w, match disk w !! path with
       | None => (Raised (FileNotFoundError path), w)
       | Some (Pickle o) => (Returned o, w)
       | Some (JsonDoc _) => (Raised (Exception "UnpicklingError"), w)
       end.

(** [with open(path, 'r') as f: json.load(f)]; a decoding error is a
    [ValueError] in Python. *)
Definition json_load (path : string) : Py ModelInfo :=
  λ w, match disk w !! path with
       | None => (Raised (FileNotFoundError path), w)
       | Some (JsonDoc i) => (Returned i, w)
       | Some (Pickle _) => (Raised (ValueError "JSONDecodeError"), w)
       end.

(** ** predict.py *)

Module PredictPy.

(** The [(model, scaler, model_info)] triple; [None] stands for the
    [(None, None, None)] triple returned when a file is not found. *)
Definition load_model : Py (option (PyLibs.pyobj * PyLibs.pyobj * ModelInfo)) :=
  try_except
    (model ← joblib_load "best_model.pkl";
     scaler ← joblib_load "scaler.pkl";
     model_info ← json_load "model_info.json";
     mret (Some (model, scaler, model_info)))
    (λ e, match e with
          | FileNotFoundError _ =>
              Some (print ("Error: Required file not found - " +:+ str e);;
                    mret None)
          | _ => None
          end).

(** The [result] dictionary. *)
Record Result : Type := {
  input_conditions : gmap string Q;
  predicted_growth_days : Q;
  model_used : string;
  model_accuracy_r2 : Q
}.

(** [None] stands for the [(None, None)] pair, [Some (prediction, result)]
    for the pair of the raw prediction and the result dictionary. *)
Definition predict_growth_days (temperature humidity tds ph : Q)
  : Py (option (Q * Result)) :=
  loaded ← load_model;
  match loaded with
  | None => mret None
  | Some (model, scaler, model_info) =>
      let feature_names := features model_info in
      let input_values := [temperature; humidity; tds; ph] in
      input_data ← lift (PyLibs.DataFrame_new [input_values] feature_names);
      input_scaled ← lift (PyLibs.call_transform scaler input_data);
      predictions ← lift (PyLibs.call_predict model input_scaled);
      match predictions !! 0%nat with
      | None => raise (Exception "IndexError: index 0 is out of bounds")
      | Some prediction =>
          let result := {|
            input_conditions :=
              {[ "temperature" := temperature;
                 "humidity" := humidity;
                 "tds" := tds;
                 "ph" := ph ]};
            predicted_growth_days := np_round prediction 2;
            model_used := model_name model_info;
            model_accuracy_r2 := round (test_r2 model_info) 4
          |} in
          mret (Some (prediction, result))
      end
  end.

Definition get_interpretation (predicted_days : Q) : string :=
  if Qltb predicted_days 15 then "Very fast growth - Excellent conditions"
  else if Qltb predicted_days 25 then "Fast growth - Good conditions"
  else if Qltb predicted_days 35 then "Moderate growth - Acceptable conditions"
  else "Slow growth - Suboptimal conditions".

End PredictPy.

(** ** String builtins *)

(** [sep.join(items)] *)
Fixpoint join (sep : string) (items : list string) : string :=
  match items with
  | [] => ""
  | item :: rest =>
      match rest with
      | [] => item
      | _ :: _ => item +:+ sep +:+ join sep rest
      end
  end.

(** [s * n] *)
Fixpoint times (s : string) (n : nat) : string :=
  match n with
  | O => ""
  | S n => s +:+ times s n
  end.

(** [s.center(width, fillchar)]: when the padding is odd, the extra fill
    character goes to the left exactly when the width is odd too. *)
Definition center (s : string) (width : nat) (fillchar : string) : string :=
  let marg := (width - String.length s)%nat in
  let left := (marg / 2 + (if Nat.odd marg && Nat.odd width then 1 else 0))%nat in
  times fillchar left +:+ s +:+ times fillchar (marg - left).

(** [f"{x:.4f}"]: the sign, the integer part, a point and four decimals. *)
Definition format_4f (x : Q) : string :=
  let k := round_half_even (Qabs x * 10000) in
  let decimals := pretty (k mod 10000)%Z in
  (if Qltb x 0 then "-" else "") +:+ pretty (k / 10000)%Z +:+ "."
  +:+ times "0" (4 - String.length decimals) +:+ decimals.

(** [for item in items: body(item)] *)
Fixpoint for_each {A} (items : list A) (body : A → Py unit) : Py unit :=
  match items with
  | [] => mret tt
  | item :: items => body item;; for_each items body
  end.

(** ** main.py *)

Module MainPy.

(** *** The request model [PredictionInput] *)

Record PredictionInput : Type := {
  temperature : Q;
  humidity : Q;
  tds : Q;
  ph : Q
}.

(** One entry of the validation error of a request body: the field it is
    about and what was wrong with it. *)
Inductive problem : Type :=
  | missing
  | not_ge (bound : Q)
  | not_le (bound : Q)
  | value_error (msg : string).

Record ErrorDetail : Type := {
  loc : string;
  what : problem
}.

(** [Field(..., ge=lo, le=hi)]: the field is required and bounded. *)
Definition Field (ge le : Q) (name : string) (body : gmap string Q)
  : ErrorDetail + Q :=
  match body !! name with
  | None => inl {| loc := name; what := missing |}
  | Some v =>
      if negb (Qgeb v ge) then inl {| loc := name; what := not_ge ge |}
      else if negb (Qle_bool v le) then inl {| loc := name; what := not_le le |}
      else inr v
  end.

Definition validate_temperature (v : Q) : outcome Q :=
  if Qltb v 18.0 || Qgtb v 35.0
  then Raised (ValueError "Temperature must be between 18.0°C and 35.0°C")
  else Returned (round v 2).

Definition validate_humidity (v : Q) : outcome Q :=
  if Qltb v 50.0 || Qgtb v 80.0
  then Raised (ValueError "Humidity must be between 50.0% and 80.0%")
  else Returned (round v 2).

Definition validate_tds (v : Q) : outcome Q :=
  if Qltb v 400.0 || Qgtb v 800.0
  then Raised (ValueError "TDS must be between 400.0 ppm and 800.0 ppm")
  else Returned (round v 2).

Definition validate_ph (v : Q) : outcome Q :=
  if Qltb v 6.0 || Qgtb v 7.0
  then Raised (ValueError "pH must be between 6.0 and 7.0")
  else Returned (round v 2).

(** A field of the model: its [Field] constraints, then its [@validator]. *)
Definition validated (field : gmap string Q → ErrorDetail + Q)
    (validator : Q → outcome Q) (name : string) (body : gmap string Q)
  : ErrorDetail + Q :=
  match field body with
  | inl err => inl err
  | inr v =>
      match validator v with
      | Returned v' => inr v'
      | Raised e => inl {| loc := name; what := value_error (str e) |}
      end
  end.

Definition errors_of {A} (r : ErrorDetail + A) : list ErrorDetail :=
  match r with
  | inl err => [err]
  | inr _ => []
  end.

(** Construction of a [PredictionInput] from a request body: every field is
    validated on its own and the errors of all fields are reported
    together, in the order of the fields. *)
Definition PredictionInput_new (body : gmap string Q)
  : list ErrorDetail + PredictionInput :=
  let temperature :=
    validated (Field 18.0 35.0 "temperature") validate_temperature "temperature" body in
  let humidity :=
    validated (Field 50.0 80.0 "humidity") validate_humidity "humidity" body in
  let tds :=
    validated (Field 400.0 800.0 "tds") validate_tds "tds" body in
  let ph :=
    validated (Field 6.0 7.0 "ph") validate_ph "ph" body in
  match temperature, humidity, tds, ph with
  | inr temperature, inr humidity, inr tds, inr ph =>
      inr {| temperature := temperature; humidity := humidity; tds := tds; ph := ph |}
  | _, _, _, _ =>
      inl (errors_of temperature ++ errors_of humidity ++ errors_of tds ++ errors_of ph)
  end.

(** *** The response model [PredictionOutput] *)

Record PredictionOutput : Type := {
  predicted_growth_days : Q;
  input_conditions : gmap string Q;
  model_used : string;
  model_accuracy_r2 : Q;
  interpretation : string
}.

(** *** Helper functions *)

Definition get_interpretation (predicted_days : Q) : string :=
  if Qltb predicted_days 15 then "Very fast growth - Excellent conditions"
  else if Qltb predicted_days 25 then "Fast growth - Good conditions"
  else if Qltb predicted_days 35 then "Moderate growth - Acceptable conditions"
  else "Slow growth - Suboptimal conditions".

Definition required_files : list string :=
  ["best_model.pkl"; "scaler.pkl"; "model_info.json"].

(** The loop of [check_model_files] over the files still to check. *)
Fixpoint check_model_files_loop (files missing_files : list string)
  : Py (list string) :=
  match files with
  | [] => mret missing_files
  | file :: files =>
      present ← path_exists file;
      check_model_files_loop files
        (if negb present then missing_files ++ [file] else missing_files)
  end.

Definition check_model_files : Py (bool * list string) :=
  missing_files ← check_model_files_loop required_files [];
  mret (length missing_files =? 0, missing_files).

(** *** The [/predict] endpoint *)

Definition predict (input_data : PredictionInput) : Py PredictionOutput :=
  try_except
    (outcome ← PredictPy.predict_growth_days
                 (temperature input_data) (humidity input_data)
                 (tds input_data) (ph input_data);
     match outcome with
     | None =>
         raise (HTTPException 500
           "Failed to load model or make prediction. Please check model files.")
     | Some (prediction, result) =>
         let interpretation := get_interpretation prediction in
         mret {|
           predicted_growth_days := np_round prediction 2;
           input_conditions := PredictPy.input_conditions result;
           model_used := PredictPy.model_used result;
           model_accuracy_r2 := PredictPy.model_accuracy_r2 result;
           interpretation := interpretation
         |}
     end)
    (λ e, match e with
          | ValueError _ =>
              Some (raise (HTTPException 422 ("Validation error: " +:+ str e)))
          | FileNotFoundError _ =>
              Some (raise (HTTPException 500 ("Model file not found: " +:+ str e)))
          | _ =>
              Some (raise (HTTPException 500 ("Prediction error: " +:+ str e)))
          end).

(** A [POST /predict] request: the framework builds the [PredictionInput]
    from the body and answers with the validation errors when that fails
    (status 422); otherwise it calls [predict]. *)
Definition post_predict (body : gmap string Q)
  : Py (list ErrorDetail + PredictionOutput) :=
  match PredictionInput_new body with
  | inl errors => mret (inl errors)
  | inr input_data => response ← predict input_data; mret (inr response)
  end.

(** *** The [/health] endpoint *)

Module HealthResponse.

Record t : Type := {
  status : string;
  model_loaded : bool;
  model_name : option string;
  model_accuracy : option Q;
  message : string
}.

End HealthResponse.

Definition health_check : Py HealthResponse.t :=
  '(files_exist, missing_files) ← check_model_files;
  if negb files_exist then
    mret {| HealthResponse.status := "unhealthy";
            HealthResponse.model_loaded := false;
            HealthResponse.model_name := None;
            HealthResponse.model_accuracy := None;
            HealthResponse.message :=
              "Missing required files: " +:+ join ", " missing_files |}
  else
    try_except
      (loaded ← PredictPy.load_model;
       match loaded with
       | None =>
           mret {| HealthResponse.status := "unhealthy";
                   HealthResponse.model_loaded := false;
                   HealthResponse.model_name := None;
                   HealthResponse.model_accuracy := None;
                   HealthResponse.message := "Failed to load model files" |}
       | Some (model, scaler, model_info) =>
           mret {| HealthResponse.status := "healthy";
                   HealthResponse.model_loaded := true;
                   HealthResponse.model_name := Some (model_name model_info);
                   HealthResponse.model_accuracy := Some (round (test_r2 model_info) 4);
                   HealthResponse.message :=
                     "API is operational and model is loaded successfully" |}
       end)
      (λ e,
         Some (mret {| HealthResponse.status := "unhealthy";
                       HealthResponse.model_loaded := false;
                       HealthResponse.model_name := None;
                       HealthResponse.model_accuracy := None;
                       HealthResponse.message := "Error loading model: " +:+ str e |})).

(** *** Application startup *)

Definition startup_event : Py unit :=
  print (times "=" 70);;
  print (center " MOSS GROWTH PREDICTION API " 70 "=");;
  print (times "=" 70);;
  '(files_exist, missing_files) ← check_model_files;
  (if (files_exist : bool) then
     print "✓ All model files found";;
     try_except
       (loaded ← PredictPy.load_model;
        match loaded with
        | Some (model, scaler, model_info) =>
            print ("✓ Model loaded: " +:+ model_name model_info);;
            print ("✓ R² Score: " +:+ format_4f (test_r2 model_info));;
            print ("✓ Features: " +:+ pretty (length (features model_info)))
        | None => print "✗ Failed to load model"
        end)
       (λ e, Some (print ("✗ Error loading model: " +:+ str e)))
   else
     print "✗ Missing model files:";;
     for_each missing_files (λ file, print ("  - " +:+ file)));;
  print (times "=" 70);;
  print "API is ready to accept requests";;
  print "Documentation available at: /docs";;
  print (times "=" 70).

End MainPy.

(** ** Sample artifacts and requests *)

Module Samples.

(** A scaler fitted on a plain array: a mean and a scale per column
    position, no column names to compare the frame with. *)
Definition standard_scaler : PyLibs.pyobj := {|
  PyLibs.transform := Some (λ X,
    Returned (map (λ row,
      zip_with (λ (x : Q) (s : Q * Q), ((x - s.1) / s.2)%Q) row
        [(25, 5); (65, 10); (600, 100); (6.5, 0.5)]%Q) (PyLibs.values X)));
  PyLibs.predict := None
|}.

(** A scaler fitted on a named frame: it refuses a frame whose column
    names are not those seen at fit time, in that order. *)
Definition named_scaler (feature_names_in : list string) : PyLibs.pyobj := {|
  PyLibs.transform := Some (λ X,
    if bool_decide (PyLibs.columns X = feature_names_in)
    then Returned (PyLibs.values X)
    else Raised (ValueError
           "The feature names should match those that were passed during fit."));
  PyLibs.predict := None
|}.

(** A regressor that weighs the four columns differently. *)
Definition linear_regressor : PyLibs.pyobj := {|
  PyLibs.transform := None;
  PyLibs.predict := Some (λ X,
    Returned (map (λ row,
      Qred (foldr Qplus 20%Q (zip_with Qmult row [2; 1; 3; 4]%Q))) X))
|}.

Definition constant_regressor (days : Q) : PyLibs.pyobj := {|
  PyLibs.transform := None;
  PyLibs.predict := Some (λ X, Returned (map (λ _, days) X))
|}.

Definition info (names : list string) (r2 : Q) : ModelInfo :=
  {| features := names; model_name := "Random Forest"; test_r2 := r2 |}.

Definition installed (model scaler : PyLibs.pyobj) (model_info : ModelInfo) : World := {|
  disk := {[ "best_model.pkl" := Pickle model;
             "scaler.pkl" := Pickle scaler;
             "model_info.json" := JsonDoc model_info ]};
  stdout := []
|}.

Definition field_order : list string := ["temperature"; "humidity"; "tds"; "ph"].
Definition swapped_order : list string := ["humidity"; "temperature"; "tds"; "ph"].

Definition request (temperature humidity tds ph : Q) : gmap string Q :=
  {[ "temperature" := temperature; "humidity" := humidity;
     "tds" := tds; "ph" := ph ]}.

Definition empty_directory : World := {| disk := ∅; stdout := [] |}.

(** The deployment of the end-to-end scenario: a model called
    "Random Forest" with an R2 score of 0.624. *)
Definition reference_info : ModelInfo := info field_order 0.624.

Definition reference_world : World :=
  installed linear_regressor standard_scaler reference_info.

Definition reference_input : MainPy.PredictionInput :=
  {| MainPy.temperature := 22.5; MainPy.humidity := 70.0;
     MainPy.tds := 600.0; MainPy.ph := 6.4 |}.

(** The same deployment with the first two feature names exchanged. *)
Definition swapped_world : World :=
  installed linear_regressor standard_scaler (info swapped_order 0.624).

(** A deployment whose R2 score has five decimals and whose regressor
    answers 14.996 days, just below the first threshold. *)
Definition threshold_info : ModelInfo := info field_order 0.62437.

Definition threshold_world : World :=
  installed (constant_regressor 14.996) standard_scaler threshold_info.

(** A regressor that answers the double nearest to 14.995. *)
Definition tie_world : World :=
  installed (constant_regressor (binary64 14.995)) standard_scaler (info field_order 0.624).

(** A scaler that was fitted on a frame with named columns, and a metadata
    document that lists the first two names the other way round. *)
Definition named_swapped_world : World :=
  installed linear_regressor (named_scaler field_order) (info swapped_order 0.624).

(** Feature names that are not fields of a reading. *)
Definition unknown_names : list string := ["alpha"; "beta"; "gamma"; "delta"].

Definition unknown_names_world : World :=
  installed linear_regressor standard_scaler (info unknown_names 0.624).

(** A metadata document that lists three features only. *)
Definition three_names_info : ModelInfo := info ["temperature"; "humidity"; "tds"] 0.624.

Definition three_names_world : World :=
  installed linear_regressor standard_scaler three_names_info.

(** A directory in which the metadata file is not a JSON document. *)
Definition metadata_not_json : World :=
  {| disk := {[ "best_model.pkl" := Pickle linear_regressor;
                "scaler.pkl" := Pickle standard_scaler;
                "model_info.json" := Pickle standard_scaler ]};
     stdout := [] |}.

(** A directory from which the scaler is absent. *)
Definition scaler_missing : World :=
  {| disk := {[ "best_model.pkl" := Pickle linear_regressor;
                "model_info.json" := JsonDoc reference_info ]};
     stdout := [] |}.

End Samples.

(** ** Vocabulary of the statements *)

(** The three artifacts are in the working directory and deserialize. *)
Definition bundle_installed (w : World)
    (model scaler : PyLibs.pyobj) (model_info : ModelInfo) : Prop :=
  disk w !! "best_model.pkl" = Some (Pickle model) ∧
  disk w !! "scaler.pkl" = Some (Pickle scaler) ∧
  disk w !! "model_info.json" = Some (JsonDoc model_info).

(** The first of the required files, in the order [load_model] reads them,
    that is absent, the ones before it being loadable. *)
Inductive first_absent (w : World) : string → Prop :=
  | absent_model :
      disk w !! "best_model.pkl" = None →
      first_absent w "best_model.pkl"
  | absent_scaler model :
      disk w !! "best_model.pkl" = Some (Pickle model) →
      disk w !! "scaler.pkl" = None →
      first_absent w "scaler.pkl"
  | absent_info model scaler :
      disk w !! "best_model.pkl" = Some (Pickle model) →
      disk w !! "scaler.pkl" = Some (Pickle scaler) →
      disk w !! "model_info.json" = None →
      first_absent w "model_info.json".

(** The console after one more line. *)
Definition printed (w : World) (line : string) : World :=
  {| disk := disk w; stdout := stdout w ++ [line] |}.

(** [msg] mentions [name]. *)
Definition mentions (msg name : string) : bool :=
  bool_decide (is_Some (index 0 name msg)).

(** The same directory with another list of feature names in the metadata. *)
Definition with_features (names : list string) (w : World) (model_info : ModelInfo)
  : World :=
  {| disk := <["model_info.json" :=
                 JsonDoc {| features := names;
                            model_name := model_name model_info;
                            test_r2 := test_r2 model_info |}]> (disk w);
     stdout := stdout w |}.

(** A transform that reads the values of the frame only, not its labels. *)
Definition label_blind (scaler : PyLibs.pyobj) : Prop :=
  ∀ names names' rows,
    PyLibs.call_transform scaler {| PyLibs.columns := names; PyLibs.values := rows |}
    = PyLibs.call_transform scaler {| PyLibs.columns := names'; PyLibs.values := rows |}.

(** A [@validator] that accepts the values within the bounds of its field
    and carries them forward rounded to two decimals. *)
Definition rounds_within (ge le : Q) (validator : Q → outcome Q) : Prop :=
  ∀ v, (ge <= v)%Q → (v <= le)%Q → validator v = Returned (round v 2).

(** The table of growth categories of the design: half-open bands
    [(-inf, 15)], [[15, 25)], [[25, 35)], [[35, +inf)]. *)
Definition band_table (interpret : Q → string) : Prop :=
  ∀ days : Q,
    (interpret days = "Very fast growth - Excellent conditions" ↔ (days < 15)%Q) ∧
    (interpret days = "Fast growth - Good conditions" ↔ (15 <= days ∧ days < 25)%Q) ∧
    (interpret days = "Moderate growth - Acceptable conditions"
       ↔ (25 <= days ∧ days < 35)%Q) ∧
    (interpret days = "Slow growth - Suboptimal conditions" ↔ (35 <= days)%Q).

(** The names of the fields of a reading, in the order of the model. *)
Definition field_names : list string := ["temperature"; "humidity"; "tds"; "ph"].

(** The request body that carries a reading. *)
Definition body_of (input_data : MainPy.PredictionInput) : gmap string Q :=
  {[ "temperature" := MainPy.temperature input_data;
     "humidity" := MainPy.humidity input_data;
     "tds" := MainPy.tds input_data;
     "ph" := MainPy.ph input_data ]}.

(** The required files that are absent, in the order of the list. *)
Definition absent_files (w : World) : list string :=
  filter (λ file, disk w !! file = None) MainPy.required_files.

(** The console after some more lines. *)
Definition printed_lines (w : World) (lines : list string) : World :=
  {| disk := disk w; stdout := stdout w ++ lines |}.

(** What startup reports between the banner and the closing lines. *)
Definition startup_report (w : World) (lines : list string) : Prop :=
  (∃ model scaler model_info,
     bundle_installed w model scaler model_info ∧
     lines = ["✓ All model files found";
              "✓ Model loaded: " +:+ model_name model_info;
              "✓ R² Score: " +:+ format_4f (test_r2 model_info);
              "✓ Features: " +:+ pretty (length (features model_info))]) ∨
  (absent_files w ≠ [] ∧
   lines = "✗ Missing model files:" :: map (λ file, "  - " +:+ file) (absent_files w)) ∨
  (∃ e,
     absent_files w = [] ∧ PredictPy.load_model w = (Raised e, w) ∧
     lines = ["✓ All model files found"; "✗ Error loading model: " +:+ str e]).

(** * Properties *)

(** ** Numbers *)

Section Numbers.
Local Open Scope Q_scope.

Lemma Qltb_lt (x y : Q) : Qltb x y = true ↔ x < y.
Proof.
  unfold Qltb. rewrite negb_true_iff, <- not_true_iff_false, Qle_bool_iff.
  split; [apply Qnot_le_lt | apply Qlt_not_le].
Qed.

Lemma Qltb_ge (x y : Q) : Qltb x y = false ↔ y <= x.
Proof. unfold Qltb. rewrite negb_false_iff. apply Qle_bool_iff. Qed.

Lemma Qgeb_le (x y : Q) : Qgeb x y = true ↔ y <= x.
Proof. apply Qle_bool_iff. Qed.

Lemma round_half_even_near (x : Q) :
  Qabs (inject_Z (round_half_even x) - x) <= 1 # 2.
Proof.
  unfold round_half_even.
  pose proof (Qfloor_le x) as Hlo. pose proof (Qlt_floor x) as Hhi.
  rewrite inject_Z_plus in Hhi. change (inject_Z 1) with 1 in Hhi.
  apply Qabs_Qle_condition.
  destruct (Qcompare_spec (x - inject_Z (Qfloor x)) (1 # 2)) as [He | Hl | Hg].
  - destruct (Z.even (Qfloor x)); [| rewrite inject_Z_plus; change (inject_Z 1) with 1];
      split; lra.
  - split; lra.
  - rewrite inject_Z_plus. change (inject_Z 1) with 1. split; lra.
Qed.

Lemma round_half_even_Z (x : Q) (k : Z) :
  x == inject_Z k → round_half_even x = k.
Proof.
  intros Hx. unfold round_half_even.
  assert (Hf : Qfloor x = k) by (rewrite Hx; apply Qfloor_Z).
  rewrite Hf.
  destruct (Qcompare_spec (x - inject_Z k) (1 # 2)) as [He | Hl | Hg];
    [exfalso; lra | reflexivity | exfalso; lra].
Qed.

Lemma pow10_pos (n : nat) : 0 < inject_Z (10 ^ Z.of_nat n).
Proof.
  change 0 with (inject_Z 0). rewrite <- Zlt_Qlt.
  apply Z.pow_pos_nonneg; lia.
Qed.

(** [round x n] is a multiple of [10^-n] ... *)
Lemma round_decimal (x : Q) (n : nat) :
  ∃ k : Z, round x n == inject_Z k / inject_Z (10 ^ Z.of_nat n).
Proof. eexists. unfold round. reflexivity. Qed.

(** ... at most half a unit of the last place away from [x]. *)
Lemma round_near (x : Q) (n : nat) :
  Qabs (round x n - x) <= (1 # 2) / inject_Z (10 ^ Z.of_nat n).
Proof.
  unfold round. pose proof (pow10_pos n) as Hp.
  set (p := inject_Z (10 ^ Z.of_nat n)) in *.
  pose proof (round_half_even_near (x * p)) as Hr.
  set (k := inject_Z (round_half_even (x * p))) in *.
  assert (He : k / p - x == (k - x * p) / p) by (field; lra).
  rewrite He. unfold Qdiv. rewrite Qabs_Qmult.
  assert (Hi : 0 < / p) by (apply Qinv_lt_0_compat; exact Hp).
  rewrite (Qabs_pos (/ p)) by lra.
  apply Qmult_le_compat_r; [exact Hr | lra].
Qed.

(** A number that already has at most [n] decimals is left as it is. *)
Lemma round_exact (x : Q) (n : nat) (k : Z) :
  x == inject_Z k / inject_Z (10 ^ Z.of_nat n) → round x n == x.
Proof.
  intros Hx. unfold round. pose proof (pow10_pos n) as Hp.
  set (p := inject_Z (10 ^ Z.of_nat n)) in *.
  assert (Hk : x * p == inject_Z k) by (rewrite Hx; field; lra).
  rewrite (round_half_even_Z _ _ Hk). rewrite Hx. reflexivity.
Qed.

End Numbers.

(** ** Doubles *)

Section Doubles.
Local Open Scope Q_scope.

Lemma two_power_pos (e : Z) : 0 < 2 ^ e.
Proof. apply Qpower_0_lt. reflexivity. Qed.

Lemma Qabs_fraction (x : Q) :
  Qabs x == inject_Z (Z.abs (Qnum x)) / inject_Z (Z.pos (Qden x)).
Proof. destruct x as [n d]. unfold Qabs. cbn [Qnum Qden]. apply Qmake_Qdiv. Qed.

Lemma fraction_le (a b n d : Z) :
  (0 < b)%Z → (0 < d)%Z → (a * d <= n * b)%Z →
  inject_Z a / inject_Z b <= inject_Z n / inject_Z d.
Proof.
  intros Hb Hd H.
  assert (0 < inject_Z b) as Hb' by (change 0 with (inject_Z 0); by rewrite <- Zlt_Qlt).
  assert (0 < inject_Z d) as Hd' by (change 0 with (inject_Z 0); by rewrite <- Zlt_Qlt).
  apply Qle_shift_div_r; [exact Hb' |].
  assert (inject_Z n / inject_Z d * inject_Z b == inject_Z (n * b) / inject_Z d) as ->
    by (rewrite inject_Z_mult; field; lra).
  apply Qle_shift_div_l; [exact Hd' |].
  rewrite <- inject_Z_mult, <- Zle_Qle. exact H.
Qed.

(** [ilog2 x] is not above the binary logarithm of [|x|]. *)
Lemma ilog2_le (x : Q) : ¬ x == 0 → 2 ^ ilog2 x <= Qabs x.
Proof.
  intros Hx. unfold ilog2.
  set (n := Z.abs (Qnum x)). set (d := Z.pos (Qden x)).
  destruct (Qle_bool (2 ^ (Z.log2 n - Z.log2 d)) (Qabs x)) eqn:E;
    [by apply Qle_bool_iff in E |].
  assert (0 < n)%Z as Hn.
  { subst n. destruct x as [a b]. unfold Qeq in Hx. cbn in *. lia. }
  assert (0 < d)%Z as Hd by (subst d; lia).
  pose proof (Z.log2_nonneg n) as Hln. pose proof (Z.log2_nonneg d) as Hld.
  destruct (Z.log2_spec n Hn) as [Hn1 _]. destruct (Z.log2_spec d Hd) as [_ Hd2].
  replace (Z.log2 n - Z.log2 d - 1)%Z with (Z.log2 n + - Z.succ (Z.log2 d))%Z by lia.
  rewrite Qpower_plus by discriminate. rewrite Qpower_opp.
  change 2 with (inject_Z 2). rewrite <- !Zpower_Qpower by lia.
  rewrite Qabs_fraction. fold n d.
  apply fraction_le; [apply Z.pow_pos_nonneg; lia | exact Hd | nia].
Qed.

(** A double is within half a unit of its last place: a relative error
    of [2^-53]. *)
Lemma binary64_near (x : Q) : Qabs (binary64 x - x) <= Qabs x / 2 ^ 53.
Proof.
  unfold binary64. destruct (Qeq_bool x 0) eqn:E.
  - apply Qeq_bool_iff in E. rewrite E. discriminate.
  - assert (¬ x == 0) as Hx by (by apply Qeq_bool_neq).
    pose proof (ilog2_le x Hx) as Hl.
    pose proof (two_power_pos (ilog2 x - 52)) as Hu.
    assert (2 ^ ilog2 x == 2 ^ (ilog2 x - 52) * 2 ^ 52) as Hs.
    { rewrite <- Qpower_plus by discriminate. f_equiv. lia. }
    set (u := 2 ^ (ilog2 x - 52)) in *.
    pose proof (round_half_even_near (x / u)) as Hr.
    set (k := inject_Z (round_half_even (x / u))) in *.
    assert (k * u - x == (k - x / u) * u) as -> by (field; lra).
    rewrite Qabs_Qmult, (Qabs_pos u) by lra.
    rewrite Hs in Hl.
    assert (Qabs (k - x / u) * u <= (1 # 2) * u) as H1
      by (apply Qmult_le_compat_r; [exact Hr | lra]).
    assert ((1 # 2) * u <= Qabs x / 2 ^ 53) as H2.
    { apply Qle_shift_div_l; [reflexivity |].
      assert ((1 # 2) * u * 2 ^ 53 == u * 2 ^ 52) as -> by (cbn; field).
      exact Hl. }
    lra.
Qed.

End Doubles.

(** ** numpy's rounding *)

Section NumpyRounding.
Local Open Scope Q_scope.

(** [np_round x n] is a number of [n] decimals whose numerator is an
    integer nearest to the double product [x * 10^n]. *)
Lemma np_round_nearest (x : Q) (n : nat) :
  ∃ k : Z,
    np_round x n == inject_Z k / inject_Z (10 ^ Z.of_nat n) ∧
    Qabs (inject_Z k - binary64 (x * inject_Z (10 ^ Z.of_nat n))) <= 1 # 2.
Proof.
  eexists. split; [unfold np_round; reflexivity |]. apply round_half_even_near.
Qed.

(** It is within half a unit of the last decimal of [x], up to the
    relative error of the double product. *)
Lemma np_round_near (x : Q) (n : nat) :
  Qabs (np_round x n - x) <= (1 # 2) / inject_Z (10 ^ Z.of_nat n) + Qabs x / 2 ^ 53.
Proof.
  unfold np_round. pose proof (pow10_pos n) as Hp.
  set (p := inject_Z (10 ^ Z.of_nat n)) in *.
  pose proof (binary64_near (x * p)) as Hb.
  pose proof (round_half_even_near (binary64 (x * p))) as Hr.
  set (b := binary64 (x * p)) in *.
  set (k := inject_Z (round_half_even b)) in *.
  rewrite Qabs_Qmult, (Qabs_pos p) in Hb by lra.
  assert (0 < 2 ^ 53) as H53 by reflexivity.
  assert (0 < / p) as Hi by (apply Qinv_lt_0_compat; exact Hp).
  assert (k / p - x == ((k - b) + (b - x * p)) * / p) as -> by (field; lra).
  rewrite Qabs_Qmult, (Qabs_pos (/ p)) by lra.
  assert (Qabs (k - b + (b - x * p)) <= (1 # 2) + Qabs x * p / 2 ^ 53) as Hs.
  { eapply Qle_trans; [apply Qabs_triangle |]. lra. }
  apply (Qmult_le_compat_r _ _ (/ p)) in Hs; [| lra].
  eapply Qle_trans; [exact Hs |].
  assert (((1 # 2) + Qabs x * p / 2 ^ 53) * / p == (1 # 2) / p + Qabs x / 2 ^ 53) as ->
    by (field; lra).
  lra.
Qed.

Lemma float_slack (tolerance x : Q) :
  0 <= tolerance →
  tolerance + Qabs x / 2 ^ 53 <= tolerance + (Qabs x + tolerance) / 2 ^ 50.
Proof.
  intros Ht. pose proof (Qabs_nonneg x) as Hx.
  assert (2 ^ 53 == 9007199254740992) as -> by reflexivity.
  assert (2 ^ 50 == 1125899906842624) as -> by reflexivity.
  set (a := Qabs x) in *.
  assert (a / 9007199254740992 == a * (1 # 9007199254740992)) as -> by field.
  assert ((a + tolerance) / 1125899906842624
          == (a + tolerance) * (1 # 1125899906842624)) as -> by field.
  lra.
Qed.

(** The bounds used for the answers: half a unit of the last decimal, up
    to a relative error of [2^-50] that covers the floating-point
    operations of either rounding. *)
Lemma np_round2_close (x : Q) :
  Qabs (np_round x 2 - x) <= 0.005 + (Qabs x + 0.005) / 2 ^ 50.
Proof.
  pose proof (np_round_near x 2) as H.
  assert ((1 # 2) / inject_Z (10 ^ Z.of_nat 2) == 0.005) as He by reflexivity.
  rewrite He in H. eapply Qle_trans; [exact H |]. apply float_slack. discriminate.
Qed.

Lemma round2_close (x : Q) :
  Qabs (round x 2 - x) <= 0.005 + (Qabs x + 0.005) / 2 ^ 50.
Proof.
  pose proof (round_near x 2) as H.
  assert ((1 # 2) / inject_Z (10 ^ Z.of_nat 2) == 0.005) as He by reflexivity.
  rewrite He in H. pose proof (float_slack 0.005 x ltac:(discriminate)) as Hs.
  pose proof (Qabs_nonneg x).
  assert (0 <= Qabs x / 2 ^ 53)
    by (apply Qle_shift_div_l; [reflexivity | lra]).
  lra.
Qed.

Lemma round4_close (x : Q) :
  Qabs (round x 4 - x) <= 0.00005 + (Qabs x + 0.00005) / 2 ^ 50.
Proof.
  pose proof (round_near x 4) as H.
  assert ((1 # 2) / inject_Z (10 ^ Z.of_nat 4) == 0.00005) as He by reflexivity.
  rewrite He in H. pose proof (float_slack 0.00005 x ltac:(discriminate)) as Hs.
  pose proof (Qabs_nonneg x).
  assert (0 <= Qabs x / 2 ^ 53)
    by (apply Qle_shift_div_l; [reflexivity | lra]).
  lra.
Qed.

(** The double nearest to 14.995 lies just below it. Its product by 100 is
    the double 1499.5, a tie, which [rint] sends to 1500: numpy answers
    15.0, farther than 0.005 from the prediction, where the rounding of
    the exact value answers 14.99. *)
Example np_round_at_a_tie :
  binary64 14.995 < 14.995 ∧
  binary64 (binary64 14.995 * 100) == 1499.5 ∧
  np_round (binary64 14.995) 2 == 15.0 ∧
  round (binary64 14.995) 2 == 14.99 ∧
  ¬ Qabs (np_round (binary64 14.995) 2 - binary64 14.995) <= 0.005.
Proof.
  split; [vm_compute; reflexivity |].
  split; [vm_compute; reflexivity |].
  split; [vm_compute; reflexivity |].
  split; [vm_compute; reflexivity |].
  intros H. apply H. vm_compute. reflexivity.
Qed.

(** Doubles are left as they are, and 0.1 is not one. *)
Example binary64_samples :
  binary64 1499.5 == 1499.5 ∧
  binary64 0.1 == 3602879701896397 # 36028797018963968 ∧
  binary64 (binary64 0.1) == binary64 0.1.
Proof. repeat split; vm_compute; reflexivity. Qed.

End NumpyRounding.

(** ** The result interpreter *)

Section Interpretation.
Local Open Scope Q_scope.

Lemma main_get_interpretation_cases (days : Q) :
  (days < 15 ∧
     MainPy.get_interpretation days = "Very fast growth - Excellent conditions") ∨
  ((15 <= days ∧ days < 25) ∧
     MainPy.get_interpretation days = "Fast growth - Good conditions") ∨
  ((25 <= days ∧ days < 35) ∧
     MainPy.get_interpretation days = "Moderate growth - Acceptable conditions") ∨
  (35 <= days ∧
     MainPy.get_interpretation days = "Slow growth - Suboptimal conditions").
Proof.
  unfold MainPy.get_interpretation.
  destruct (Qltb days 15) eqn:H15; [apply Qltb_lt in H15; auto |].
  destruct (Qltb days 25) eqn:H25; [apply Qltb_lt in H25; apply Qltb_ge in H15; auto |].
  destruct (Qltb days 35) eqn:H35.
  - apply Qltb_lt in H35. apply Qltb_ge in H25. auto 6.
  - apply Qltb_ge in H35. auto 6.
Qed.

Lemma main_band_table : band_table MainPy.get_interpretation.
Proof.
  intros days.
  destruct (main_get_interpretation_cases days)
    as [[H ->] | [[H ->] | [[H ->] | [H ->]]]];
    (split; [| split; [| split]]);
    (split; intros G; [try discriminate G | try reflexivity]);
    try tauto; exfalso; lra.
Qed.

(** C10: the interpreter of the prediction module and the one of the
    request-handling layer return the same category for every number of
    days. *)
Theorem get_interpretation_copies_agree (predicted_days : Q) :
  PredictPy.get_interpretation predicted_days
  = MainPy.get_interpretation predicted_days.
Proof.
  unfold PredictPy.get_interpretation, MainPy.get_interpretation.
  destruct (Qltb predicted_days 15); [reflexivity |].
  destruct (Qltb predicted_days 25); [reflexivity |].
  destruct (Qltb predicted_days 35); reflexivity.
Qed.

Lemma predict_band_table : band_table PredictPy.get_interpretation.
Proof.
  intros days.
  destruct (main_band_table days) as (H1 & H2 & H3 & H4).
  unfold PredictPy.get_interpretation, MainPy.get_interpretation in *.
  auto.
Qed.

(** C2: the interpreter is defined on every number of days and its four
    categories are exactly the half-open bands below 15, from 15 to below
    25, from 25 to below 35, and from 35 on, so that every number falls in
    one band and only one; 15.0 is "Fast", 14.99 is "Very fast". Both
    copies of the interpreter follow the table. *)
Theorem interpret_bands :
  band_table MainPy.get_interpretation ∧
  band_table PredictPy.get_interpretation ∧
  MainPy.get_interpretation 15.0 = "Fast growth - Good conditions" ∧
  MainPy.get_interpretation 14.99 = "Very fast growth - Excellent conditions" ∧
  PredictPy.get_interpretation 15.0 = "Fast growth - Good conditions" ∧
  PredictPy.get_interpretation 14.99 = "Very fast growth - Excellent conditions".
Proof.
  split; [exact main_band_table |].
  split; [exact predict_band_table |].
  repeat split; reflexivity.
Qed.

End Interpretation.

(** ** The artifact loader *)

Ltac run_py :=
  unfold PredictPy.load_model, try_except, joblib_load, json_load, print, raise,
    lift, mbind, mret, Py_bind, Py_ret in *;
  cbn [fst snd disk stdout] in *.

Ltac case_file w path :=
  let E := fresh "E" in
  destruct (disk w !! path) as [[?|?]|] eqn:E; cbn [fst snd disk stdout] in *.

Section Loader.

Lemma load_model_installed w model scaler model_info :
  bundle_installed w model scaler model_info →
  PredictPy.load_model w = (Returned (Some (model, scaler, model_info)), w).
Proof.
  intros (Hm & Hs & Hi). run_py. rewrite Hm. cbn. rewrite Hs. cbn.
  rewrite Hi. reflexivity.
Qed.

Lemma load_model_first_absent w path :
  first_absent w path →
  PredictPy.load_model w
  = (Returned None,
     printed w ("Error: Required file not found - "
                +:+ "[Errno 2] No such file or directory: '" +:+ path +:+ "'")).
Proof.
  intros [Hm | model Hm Hs | model scaler Hm Hs Hi]; run_py.
  - rewrite Hm. reflexivity.
  - rewrite Hm. cbn. rewrite Hs. reflexivity.
  - rewrite Hm. cbn. rewrite Hs. cbn. rewrite Hi. reflexivity.
Qed.

Lemma load_model_Some w w' model scaler model_info :
  PredictPy.load_model w = (Returned (Some (model, scaler, model_info)), w') →
  w' = w ∧ bundle_installed w model scaler model_info.
Proof.
  unfold bundle_installed. run_py.
  case_file w "best_model.pkl"; [| discriminate | discriminate].
  case_file w "scaler.pkl"; [| discriminate | discriminate].
  case_file w "model_info.json"; [discriminate | | discriminate].
  intros [= <- <- <- <-]. auto.
Qed.

(** The loader never writes to the directory, and what it returns depends
    on the directory only. *)
Lemma load_model_disk w : disk (PredictPy.load_model w).2 = disk w.
Proof.
  run_py.
  case_file w "best_model.pkl"; try reflexivity;
    case_file w "scaler.pkl"; try reflexivity;
    case_file w "model_info.json"; reflexivity.
Qed.

Lemma load_model_reads_disk w w' :
  disk w = disk w' → (PredictPy.load_model w).1 = (PredictPy.load_model w').1.
Proof.
  destruct w as [files out], w' as [files' out']. cbn [disk]. intros <-. run_py.
  destruct (files !! "best_model.pkl") as [[?|?]|];
    cbn [fst snd disk stdout]; try reflexivity;
    destruct (files !! "scaler.pkl") as [[?|?]|];
    cbn [fst snd disk stdout]; try reflexivity;
    destruct (files !! "model_info.json") as [[?|?]|]; reflexivity.
Qed.

Lemma load_model_quiet w loaded :
  (PredictPy.load_model w).1 = Returned (Some loaded) →
  (PredictPy.load_model w).2 = w.
Proof.
  destruct (PredictPy.load_model w) as [r w'] eqn:E. cbn. intros ->.
  destruct loaded as [[model scaler] model_info].
  apply load_model_Some in E. tauto.
Qed.

Lemma check_model_files_lists_missing w :
  (MainPy.check_model_files w).1
  = Returned
      (bool_decide (Forall (λ file, is_Some (disk w !! file)) MainPy.required_files),
       filter (λ file, disk w !! file = None) MainPy.required_files).
Proof.
  unfold MainPy.check_model_files, MainPy.required_files, MainPy.check_model_files_loop,
    path_exists, mbind, mret, Py_bind, Py_ret. cbn beta iota.
  rewrite !filter_cons, filter_nil.
  destruct (disk w !! "best_model.pkl") as [b1|] eqn:E1;
    destruct (disk w !! "scaler.pkl") as [b2|] eqn:E2;
    destruct (disk w !! "model_info.json") as [b3|] eqn:E3; cbn;
    repeat (rewrite decide_True by done || rewrite decide_False by done); cbn;
    f_equal; f_equal; symmetry;
    (apply bool_decide_eq_true; repeat constructor; by eauto)
    || (apply bool_decide_eq_false; rewrite !Forall_cons;
        rewrite ?E1, ?E2, ?E3; intros (H1 & H2 & H3 & _);
        first [by destruct H1 | by destruct H2 | by destruct H3]).
Qed.

End Loader.

(** ** The inference pipeline *)

Ltac case_outcomes :=
  repeat (match goal with
          | |- context [match ?x with _ => _ end] => destruct x eqn:?
          end; cbn [fst snd disk stdout] in *).

Ltac unfold_pipeline :=
  unfold PredictPy.predict_growth_days, lift, raise, mbind, mret, Py_bind, Py_ret in *;
  cbn [fst snd disk stdout] in *.

Section Pipeline.

Lemma DataFrame_new_row (row : list Q) (names : list string) :
  length row = length names →
  PyLibs.DataFrame_new [row] names
  = Returned {| PyLibs.columns := names; PyLibs.values := [row] |}.
Proof.
  intros Hlen. unfold PyLibs.DataFrame_new. cbn.
  rewrite (proj2 (Nat.eqb_eq _ _) Hlen). reflexivity.
Qed.

Lemma DataFrame_new_mismatch (row : list Q) (names : list string) :
  length row ≠ length names →
  PyLibs.DataFrame_new [row] names
  = Raised (ValueError (pretty (length names) +:+ " columns passed, passed data had "
                        +:+ pretty (length row) +:+ " columns")).
Proof.
  intros Hlen. unfold PyLibs.DataFrame_new. cbn.
  rewrite (proj2 (Nat.eqb_neq _ _) Hlen). reflexivity.
Qed.

(** With the artifacts in place, a prediction is the regressor applied to
    the scaled frame whose labels are the metadata's feature names and
    whose single row is [temperature; humidity; tds; ph]. *)
Lemma predict_growth_days_installed w model scaler model_info
    (temperature humidity tds ph : Q) (scaled : list (list Q))
    (predictions : list Q) (prediction : Q) :
  bundle_installed w model scaler model_info →
  length (features model_info) = 4%nat →
  PyLibs.call_transform scaler
    {| PyLibs.columns := features model_info;
       PyLibs.values := [[temperature; humidity; tds; ph]] |} = Returned scaled →
  PyLibs.call_predict model scaled = Returned predictions →
  predictions !! 0%nat = Some prediction →
  PredictPy.predict_growth_days temperature humidity tds ph w
  = (Returned (Some (prediction,
       {| PredictPy.input_conditions :=
            {[ "temperature" := temperature; "humidity" := humidity;
               "tds" := tds; "ph" := ph ]};
          PredictPy.predicted_growth_days := np_round prediction 2;
          PredictPy.model_used := model_name model_info;
          PredictPy.model_accuracy_r2 := round (test_r2 model_info) 4 |})), w).
Proof.
  intros Hb Hlen Ht Hp H0. unfold_pipeline.
  rewrite (load_model_installed _ _ _ _ Hb).
  rewrite DataFrame_new_row by (symmetry; exact Hlen).
  rewrite Ht, Hp, H0. reflexivity.
Qed.

Lemma predict_growth_days_Some w w' (temperature humidity tds ph : Q)
    (prediction : Q) (result : PredictPy.Result) :
  PredictPy.predict_growth_days temperature humidity tds ph w
  = (Returned (Some (prediction, result)), w') →
  w' = w ∧
  ∃ model scaler model_info scaled predictions,
    bundle_installed w model scaler model_info ∧
    length (features model_info) = 4%nat ∧
    PyLibs.call_transform scaler
      {| PyLibs.columns := features model_info;
         PyLibs.values := [[temperature; humidity; tds; ph]] |} = Returned scaled ∧
    PyLibs.call_predict model scaled = Returned predictions ∧
    predictions !! 0%nat = Some prediction ∧
    result =
      {| PredictPy.input_conditions :=
           {[ "temperature" := temperature; "humidity" := humidity;
              "tds" := tds; "ph" := ph ]};
         PredictPy.predicted_growth_days := np_round prediction 2;
         PredictPy.model_used := model_name model_info;
         PredictPy.model_accuracy_r2 := round (test_r2 model_info) 4 |}.
Proof.
  unfold_pipeline.
  destruct (PredictPy.load_model w) as [[[[[model scaler] model_info]|]|e] w1] eqn:El;
    [| discriminate | discriminate].
  apply load_model_Some in El as [-> Hb].
  destruct (decide (length (features model_info) = 4%nat)) as [Hlen | Hlen].
  - rewrite DataFrame_new_row by (symmetry; exact Hlen).
    destruct (PyLibs.call_transform scaler _) as [scaled|] eqn:Ht; [| discriminate].
    destruct (PyLibs.call_predict model scaled) as [predictions|] eqn:Hp;
      [| discriminate].
    destruct (predictions !! 0%nat) as [v|] eqn:H0; [| discriminate].
    intros [= <- <- <-]. split; [reflexivity |].
    exists model, scaler, model_info, scaled, predictions. auto 10.
  - rewrite DataFrame_new_mismatch by (intros H; apply Hlen; symmetry; exact H).
    discriminate.
Qed.

Lemma predict_growth_days_first_absent w path (temperature humidity tds ph : Q) :
  first_absent w path →
  PredictPy.predict_growth_days temperature humidity tds ph w
  = (Returned None,
     printed w ("Error: Required file not found - "
                +:+ "[Errno 2] No such file or directory: '" +:+ path +:+ "'")).
Proof.
  intros Ha. unfold_pipeline. rewrite (load_model_first_absent _ _ Ha). reflexivity.
Qed.

Lemma predict_growth_days_disk w (temperature humidity tds ph : Q) :
  disk (PredictPy.predict_growth_days temperature humidity tds ph w).2 = disk w.
Proof.
  unfold_pipeline. pose proof (load_model_disk w) as Hd.
  destruct (PredictPy.load_model w) as [r w1]. cbn in Hd.
  case_outcomes; exact Hd.
Qed.

Lemma predict_growth_days_reads_disk w w' (temperature humidity tds ph : Q) :
  disk w = disk w' →
  (PredictPy.predict_growth_days temperature humidity tds ph w).1
  = (PredictPy.predict_growth_days temperature humidity tds ph w').1.
Proof.
  intros Hd. unfold_pipeline. pose proof (load_model_reads_disk w w' Hd) as Hr.
  destruct (PredictPy.load_model w) as [r w1], (PredictPy.load_model w') as [r' w1'].
  cbn in Hr. subst r'. case_outcomes; reflexivity.
Qed.

End Pipeline.

(** ** The input validator *)

Section Validation.
Local Open Scope Q_scope.

Lemma Field_inr ge le name body v :
  MainPy.Field ge le name body = inr v ↔
  body !! name = Some v ∧ ge <= v ∧ v <= le.
Proof.
  unfold MainPy.Field. destruct (body !! name) as [x|]; [| split; [done | intros [[=] _]]].
  destruct (Qgeb x ge) eqn:Hge; cbn.
  - apply Qgeb_le in Hge. destruct (Qle_bool x le) eqn:Hle; cbn.
    + apply Qle_bool_iff in Hle. split; [intros [= <-]; auto | intros ([= <-] & _); auto].
    + split; [done |]. intros ([= <-] & _ & H). apply Qle_bool_iff in H. congruence.
  - split; [done |]. intros ([= <-] & H & _). apply Qgeb_le in H. congruence.
Qed.

Lemma Field_inl ge le name body err :
  MainPy.Field ge le name body = inl err → MainPy.loc err = name.
Proof.
  unfold MainPy.Field. destruct (body !! name) as [x|]; [| by intros [= <-]].
  destruct (Qgeb x ge); cbn; [| by intros [= <-]].
  destruct (Qle_bool x le); cbn; [done | by intros [= <-]].
Qed.

Ltac rounds_within_tac :=
  intros v Hge Hle;
  match goal with |- ?f v = _ => unfold f end;
  rewrite (proj2 (Qltb_ge _ _) Hge);
  unfold Qgtb; rewrite (proj2 (Qltb_ge _ _) Hle); reflexivity.

Lemma validate_temperature_rounds :
  rounds_within 18.0 35.0 MainPy.validate_temperature.
Proof. rounds_within_tac. Qed.

Lemma validate_humidity_rounds : rounds_within 50.0 80.0 MainPy.validate_humidity.
Proof. rounds_within_tac. Qed.

Lemma validate_tds_rounds : rounds_within 400.0 800.0 MainPy.validate_tds.
Proof. rounds_within_tac. Qed.

Lemma validate_ph_rounds : rounds_within 6.0 7.0 MainPy.validate_ph.
Proof. rounds_within_tac. Qed.

(** A field is accepted exactly when it is within its bounds, and then it
    is carried forward rounded; a rejection names the field. *)
Lemma validated_cases ge le name validator body v :
  rounds_within ge le validator →
  body !! name = Some v →
  (ge <= v ∧ v <= le ∧
     MainPy.validated (MainPy.Field ge le name) validator name body = inr (round v 2)) ∨
  (¬ (ge <= v ∧ v <= le) ∧
     ∃ what, MainPy.validated (MainPy.Field ge le name) validator name body
             = inl {| MainPy.loc := name; MainPy.what := what |}).
Proof.
  intros Hval Hv. unfold MainPy.validated.
  destruct (MainPy.Field ge le name body) as [err | x] eqn:Hf.
  - right. split.
    + intros [Hge Hle].
      assert (MainPy.Field ge le name body = inr v) as Hok by (apply Field_inr; auto).
      congruence.
    + pose proof (Field_inl _ _ _ _ _ Hf) as Hloc. destruct err as [l p].
      cbn in Hloc. subst l. eauto.
  - apply Field_inr in Hf as (Hx & Hge & Hle).
    assert (x = v) as -> by congruence.
    left. rewrite (Hval v Hge Hle). auto.
Qed.

Lemma validated_inr ge le name validator body x :
  rounds_within ge le validator →
  MainPy.validated (MainPy.Field ge le name) validator name body = inr x →
  ∃ v, body !! name = Some v ∧ ge <= v ∧ v <= le ∧ x = round v 2.
Proof.
  intros Hval. unfold MainPy.validated.
  destruct (MainPy.Field ge le name body) as [err | v] eqn:Hf; [done |].
  apply Field_inr in Hf as (Hv & Hge & Hle).
  rewrite (Hval v Hge Hle). intros [= <-]. eauto.
Qed.

Lemma PredictionInput_new_inr body input_data :
  MainPy.PredictionInput_new body = inr input_data →
  ∃ t h d p,
    (body !! "temperature" = Some t ∧ body !! "humidity" = Some h ∧
     body !! "tds" = Some d ∧ body !! "ph" = Some p) ∧
    ((18.0 <= t ∧ t <= 35.0) ∧ (50.0 <= h ∧ h <= 80.0) ∧
     (400.0 <= d ∧ d <= 800.0) ∧ (6.0 <= p ∧ p <= 7.0)) ∧
    input_data = {| MainPy.temperature := round t 2; MainPy.humidity := round h 2;
                    MainPy.tds := round d 2; MainPy.ph := round p 2 |}.
Proof.
  unfold MainPy.PredictionInput_new.
  destruct (MainPy.validated _ MainPy.validate_temperature _ _) as [? | t'] eqn:Ht;
    [by repeat case_match |].
  destruct (MainPy.validated _ MainPy.validate_humidity _ _) as [? | h'] eqn:Hh;
    [by repeat case_match |].
  destruct (MainPy.validated _ MainPy.validate_tds _ _) as [? | d'] eqn:Hd;
    [by repeat case_match |].
  destruct (MainPy.validated _ MainPy.validate_ph _ _) as [? | p'] eqn:Hp; [done |].
  intros [= <-].
  apply (validated_inr _ _ _ _ _ _ validate_temperature_rounds) in Ht
    as (t & ? & ? & ? & ->).
  apply (validated_inr _ _ _ _ _ _ validate_humidity_rounds) in Hh
    as (h & ? & ? & ? & ->).
  apply (validated_inr _ _ _ _ _ _ validate_tds_rounds) in Hd as (d & ? & ? & ? & ->).
  apply (validated_inr _ _ _ _ _ _ validate_ph_rounds) in Hp as (p & ? & ? & ? & ->).
  exists t, h, d, p. auto 20.
Qed.

End Validation.

Section ValidationClaims.
Local Open Scope Q_scope.

Ltac field_cases H Hrounds :=
  let E := fresh "E" in
  let N := fresh "N" in
  let what := fresh "what" in
  destruct (validated_cases _ _ _ _ _ _ Hrounds H)
    as [(? & ? & E) | (N & what & E)]; rewrite E; clear E.

Ltac names_of_errors :=
  cbn [MainPy.errors_of app map MainPy.loc];
  rewrite ?elem_of_cons, ?elem_of_nil;
  repeat split; intros;
  repeat match goal with H : _ ∨ _ |- _ => destruct H end;
  try discriminate; try tauto; auto 10.

(** C3: a request body that has the four fields is accepted exactly when
    every field lies within its inclusive bounds (temperature 18.0 to
    35.0, humidity 50.0 to 80.0, tds 400.0 to 800.0, ph 6.0 to 7.0), and
    when it is rejected the reported errors name exactly the fields that
    are out of range, each on its own. *)
Theorem validation_ranges (body : gmap string Q) (t h d p : Q) :
  body !! "temperature" = Some t →
  body !! "humidity" = Some h →
  body !! "tds" = Some d →
  body !! "ph" = Some p →
  ((∃ input_data, MainPy.PredictionInput_new body = inr input_data) ↔
     (18.0 <= t ∧ t <= 35.0) ∧ (50.0 <= h ∧ h <= 80.0) ∧
     (400.0 <= d ∧ d <= 800.0) ∧ (6.0 <= p ∧ p <= 7.0)) ∧
  (∀ errors, MainPy.PredictionInput_new body = inl errors →
     ("temperature" ∈ map MainPy.loc errors ↔ ¬ (18.0 <= t ∧ t <= 35.0)) ∧
     ("humidity" ∈ map MainPy.loc errors ↔ ¬ (50.0 <= h ∧ h <= 80.0)) ∧
     ("tds" ∈ map MainPy.loc errors ↔ ¬ (400.0 <= d ∧ d <= 800.0)) ∧
     ("ph" ∈ map MainPy.loc errors ↔ ¬ (6.0 <= p ∧ p <= 7.0))).
Proof.
  intros Ht Hh Hd Hp. unfold MainPy.PredictionInput_new.
  field_cases Ht validate_temperature_rounds;
    field_cases Hh validate_humidity_rounds;
    field_cases Hd validate_tds_rounds;
    field_cases Hp validate_ph_rounds;
    (split;
     [ split; [intros [input_data Hin]; first [discriminate Hin | tauto]
              | intros; first [eexists; reflexivity | exfalso; tauto]]
     | intros errors Herr; first [discriminate Herr | injection Herr as <-];
       names_of_errors ]).
Qed.

(** The request of the validation test: temperature 15.0 and ph 7.5 are
    both reported, humidity and tds are not. *)
Lemma validation_ranges_witness :
  (Samples.request 15.0 70.0 600.0 7.5 !! "temperature" = Some 15.0 ∧
   Samples.request 15.0 70.0 600.0 7.5 !! "humidity" = Some 70.0 ∧
   Samples.request 15.0 70.0 600.0 7.5 !! "tds" = Some 600.0 ∧
   Samples.request 15.0 70.0 600.0 7.5 !! "ph" = Some 7.5) ∧
  (∀ errors,
     MainPy.PredictionInput_new (Samples.request 15.0 70.0 600.0 7.5) = inl errors →
     ("temperature" ∈ map MainPy.loc errors ↔ ¬ (18.0 <= 15.0 ∧ 15.0 <= 35.0)) ∧
     ("humidity" ∈ map MainPy.loc errors ↔ ¬ (50.0 <= 70.0 ∧ 70.0 <= 80.0)) ∧
     ("tds" ∈ map MainPy.loc errors ↔ ¬ (400.0 <= 600.0 ∧ 600.0 <= 800.0)) ∧
     ("ph" ∈ map MainPy.loc errors ↔ ¬ (6.0 <= 7.5 ∧ 7.5 <= 7.0))).
Proof.
  split; [repeat split; reflexivity |].
  apply (validation_ranges (Samples.request 15.0 70.0 600.0 7.5) 15.0 70.0 600.0 7.5);
    reflexivity.
Defined.

Example temperature_too_low :
  MainPy.PredictionInput_new (Samples.request 15.0 70.0 600.0 6.4)
  = inl [{| MainPy.loc := "temperature"; MainPy.what := MainPy.not_ge 18.0 |}].
Proof. reflexivity. Qed.

Example ph_too_high :
  MainPy.PredictionInput_new (Samples.request 22.5 70.0 600.0 7.5)
  = inl [{| MainPy.loc := "ph"; MainPy.what := MainPy.not_le 7.0 |}].
Proof. reflexivity. Qed.

Example ph_missing :
  MainPy.PredictionInput_new {[ "temperature" := 22.5; "humidity" := 70.0; "tds" := 600.0 ]}
  = inl [{| MainPy.loc := "ph"; MainPy.what := MainPy.missing |}].
Proof. reflexivity. Qed.

End ValidationClaims.

(** ** The request handler *)

Ltac unfold_handler :=
  unfold MainPy.predict, try_except, raise, mbind, mret, Py_bind, Py_ret in *;
  cbn [fst snd disk stdout] in *.

Section Handler.

Lemma predict_Returned (input_data : MainPy.PredictionInput) w w'
    (prediction : Q) (result : PredictPy.Result) :
  PredictPy.predict_growth_days
    (MainPy.temperature input_data) (MainPy.humidity input_data)
    (MainPy.tds input_data) (MainPy.ph input_data) w
  = (Returned (Some (prediction, result)), w') →
  MainPy.predict input_data w
  = (Returned
       {| MainPy.predicted_growth_days := np_round prediction 2;
          MainPy.input_conditions := PredictPy.input_conditions result;
          MainPy.model_used := PredictPy.model_used result;
          MainPy.model_accuracy_r2 := PredictPy.model_accuracy_r2 result;
          MainPy.interpretation := MainPy.get_interpretation prediction |}, w').
Proof. intros E. unfold_handler. rewrite E. reflexivity. Qed.

Lemma predict_Returned_inv (input_data : MainPy.PredictionInput) w w'
    (response : MainPy.PredictionOutput) :
  MainPy.predict input_data w = (Returned response, w') →
  ∃ prediction result,
    PredictPy.predict_growth_days
      (MainPy.temperature input_data) (MainPy.humidity input_data)
      (MainPy.tds input_data) (MainPy.ph input_data) w
    = (Returned (Some (prediction, result)), w') ∧
    response =
      {| MainPy.predicted_growth_days := np_round prediction 2;
         MainPy.input_conditions := PredictPy.input_conditions result;
         MainPy.model_used := PredictPy.model_used result;
         MainPy.model_accuracy_r2 := PredictPy.model_accuracy_r2 result;
         MainPy.interpretation := MainPy.get_interpretation prediction |}.
Proof.
  unfold_handler.
  destruct (PredictPy.predict_growth_days _ _ _ _ w)
    as [[[[prediction result]|]|e] w1]; cbn.
  - intros [= <- <-]. eauto.
  - discriminate.
  - destruct e; discriminate.
Qed.

Lemma post_predict_Returned_inv (body : gmap string Q) w w'
    (response : MainPy.PredictionOutput) :
  MainPy.post_predict body w = (Returned (inr response), w') →
  ∃ input_data,
    MainPy.PredictionInput_new body = inr input_data ∧
    MainPy.predict input_data w = (Returned response, w').
Proof.
  unfold MainPy.post_predict.
  destruct (MainPy.PredictionInput_new body) as [errors | input_data].
  - discriminate.
  - unfold mbind, mret, Py_bind, Py_ret.
    destruct (MainPy.predict input_data w) as [[r|e] w1] eqn:E; [| discriminate].
    intros [= <- <-]. eauto.
Qed.

Lemma bundle_installed_inj w model scaler model_info model' scaler' model_info' :
  bundle_installed w model scaler model_info →
  bundle_installed w model' scaler' model_info' →
  model' = model ∧ scaler' = scaler ∧ model_info' = model_info.
Proof. intros (?&?&?) (?&?&?). repeat split; congruence. Qed.

End Handler.

(** ** Response assembly and the echoed request *)

Section Assembly.
Local Open Scope Q_scope.

(** C9: whenever the pipeline has produced a prediction, the handler
    answers, and its answer holds the reading it was given, the model name
    of the metadata, the category of the prediction, the prediction rounded
    to 2 decimals and the R2 score of the metadata rounded to 4 decimals.
    The returned days are a number of 2 decimals whose numerator is an
    integer nearest to the double product of the prediction by 100 (numpy's
    rounding), hence within 0.005 of the prediction up to the error of the
    floating-point operations; the returned score is a number of 4 decimals
    within 0.00005 of the score, up to the same error. No bound on the
    reading or on the prediction is checked at this stage: the statement
    holds for all of them. *)
Theorem response_assembly w w' model scaler model_info
    (input_data : MainPy.PredictionInput) (prediction : Q) (result : PredictPy.Result) :
  bundle_installed w model scaler model_info →
  PredictPy.predict_growth_days
    (MainPy.temperature input_data) (MainPy.humidity input_data)
    (MainPy.tds input_data) (MainPy.ph input_data) w
  = (Returned (Some (prediction, result)), w') →
  ∃ response,
    MainPy.predict input_data w = (Returned response, w) ∧
    response =
      {| MainPy.predicted_growth_days := np_round prediction 2;
         MainPy.input_conditions :=
           {[ "temperature" := MainPy.temperature input_data;
              "humidity" := MainPy.humidity input_data;
              "tds" := MainPy.tds input_data;
              "ph" := MainPy.ph input_data ]};
         MainPy.model_used := model_name model_info;
         MainPy.model_accuracy_r2 := round (test_r2 model_info) 4;
         MainPy.interpretation := MainPy.get_interpretation prediction |} ∧
    (∃ k : Z,
       MainPy.predicted_growth_days response == inject_Z k / 100 ∧
       Qabs (inject_Z k - binary64 (prediction * 100)) <= 1 # 2) ∧
    Qabs (MainPy.predicted_growth_days response - prediction)
    <= 0.005 + (Qabs prediction + 0.005) / 2 ^ 50 ∧
    (∃ k : Z,
       MainPy.model_accuracy_r2 response == inject_Z k / 10000 ∧
       Qabs (inject_Z k - test_r2 model_info * 10000) <= 1 # 2) ∧
    Qabs (MainPy.model_accuracy_r2 response - test_r2 model_info)
    <= 0.00005 + (Qabs (test_r2 model_info) + 0.00005) / 2 ^ 50.
Proof.
  intros Hb Hrun.
  pose proof (predict_Returned _ _ _ _ _ Hrun) as Hanswer.
  apply predict_growth_days_Some in Hrun
    as (-> & model' & scaler' & model_info' & scaled & predictions
        & Hb' & _ & _ & _ & _ & ->).
  destruct (bundle_installed_inj _ _ _ _ _ _ _ Hb Hb') as (_ & _ & ->).
  eexists. split; [exact Hanswer |].
  cbn [MainPy.predicted_growth_days MainPy.model_accuracy_r2
       PredictPy.input_conditions PredictPy.model_used PredictPy.model_accuracy_r2].
  split; [reflexivity |].
  split; [exact (np_round_nearest prediction 2) |].
  split; [apply np_round2_close |].
  split; [| apply round4_close].
  eexists. split; [unfold round; reflexivity |]. apply round_half_even_near.
Qed.

Lemma response_assembly_witness :
  bundle_installed Samples.reference_world
    Samples.linear_regressor Samples.standard_scaler Samples.reference_info ∧
  PredictPy.predict_growth_days 22.5 70.0 600.0 6.4 Samples.reference_world
  = (Returned (Some (187 # 10,
       {| PredictPy.input_conditions := Samples.request 22.5 70.0 600.0 6.4;
          PredictPy.predicted_growth_days := 18.70;
          PredictPy.model_used := "Random Forest";
          PredictPy.model_accuracy_r2 := 0.6240 |})),
     Samples.reference_world) ∧
  ∃ response,
    MainPy.predict Samples.reference_input Samples.reference_world
    = (Returned response, Samples.reference_world) ∧
    response =
      {| MainPy.predicted_growth_days := np_round (187 # 10) 2;
         MainPy.input_conditions := Samples.request 22.5 70.0 600.0 6.4;
         MainPy.model_used := "Random Forest";
         MainPy.model_accuracy_r2 := round 0.624 4;
         MainPy.interpretation := "Fast growth - Good conditions" |} ∧
    (∃ k : Z,
       MainPy.predicted_growth_days response == inject_Z k / 100 ∧
       Qabs (inject_Z k - binary64 ((187 # 10) * 100)) <= 1 # 2) ∧
    Qabs (MainPy.predicted_growth_days response - (187 # 10))
    <= 0.005 + (Qabs (187 # 10) + 0.005) / 2 ^ 50 ∧
    (∃ k : Z,
       MainPy.model_accuracy_r2 response == inject_Z k / 10000 ∧
       Qabs (inject_Z k - 0.624 * 10000) <= 1 # 2) ∧
    Qabs (MainPy.model_accuracy_r2 response - 0.624)
    <= 0.00005 + (Qabs 0.624 + 0.00005) / 2 ^ 50.
Proof.
  split; [repeat split; reflexivity |].
  split; [vm_compute; reflexivity |].
  apply (response_assembly Samples.reference_world Samples.reference_world
           Samples.linear_regressor Samples.standard_scaler Samples.reference_info
           Samples.reference_input (187 # 10)
           {| PredictPy.input_conditions := Samples.request 22.5 70.0 600.0 6.4;
              PredictPy.predicted_growth_days := 18.70;
              PredictPy.model_used := "Random Forest";
              PredictPy.model_accuracy_r2 := 0.6240 |});
    [repeat split; reflexivity | vm_compute; reflexivity].
Defined.

(** A regressor that answers the double nearest to 14.995: the request is
    answered with 15.0 days and the category of the band below 15. *)
Example prediction_at_a_tie :
  MainPy.predict Samples.reference_input Samples.tie_world
  = (Returned
       {| MainPy.predicted_growth_days := 15.00;
          MainPy.input_conditions := Samples.request 22.5 70.0 600.0 6.4;
          MainPy.model_used := "Random Forest";
          MainPy.model_accuracy_r2 := 0.6240;
          MainPy.interpretation := "Very fast growth - Excellent conditions" |},
     Samples.tie_world).
Proof. vm_compute. reflexivity. Qed.

(** C5 (as amended): in every successful answer, [model_used] is the model
    name of the metadata and [model_accuracy_r2] is its R2 score rounded to
    4 decimals (hence the score itself when it has at most 4 decimals, as
    0.624 has); [predicted_growth_days] is the regressor's prediction rounded
    to 2 decimals by numpy ([np_round]: a number of 2 decimals whose
    numerator is an integer nearest to the double product of the prediction
    by 100), and [interpretation] is the category of the band that contains
    the prediction before that rounding. *)
Theorem successful_answer_contents (body : gmap string Q) w w'
    (response : MainPy.PredictionOutput) model scaler model_info :
  bundle_installed w model scaler model_info →
  MainPy.post_predict body w = (Returned (inr response), w') →
  MainPy.model_used response = model_name model_info ∧
  MainPy.model_accuracy_r2 response = round (test_r2 model_info) 4 ∧
  (∀ k : Z, test_r2 model_info == inject_Z k / 10000 →
     MainPy.model_accuracy_r2 response == test_r2 model_info) ∧
  ∃ scaled predictions prediction,
    PyLibs.call_predict model scaled = Returned predictions ∧
    predictions !! 0%nat = Some prediction ∧
    MainPy.predicted_growth_days response = np_round prediction 2 ∧
    MainPy.interpretation response = MainPy.get_interpretation prediction ∧
    ∃ k : Z,
      MainPy.predicted_growth_days response == inject_Z k / 100 ∧
      Qabs (inject_Z k - binary64 (prediction * 100)) <= 1 # 2.
Proof.
  intros Hb Hrun.
  apply post_predict_Returned_inv in Hrun as (input_data & _ & Hrun).
  apply predict_Returned_inv in Hrun as (prediction & result & Hrun & ->).
  apply predict_growth_days_Some in Hrun
    as (-> & model' & scaler' & model_info' & scaled & predictions
        & Hb' & _ & _ & Hp & H0 & ->).
  destruct (bundle_installed_inj _ _ _ _ _ _ _ Hb Hb') as (-> & _ & ->).
  cbn. split; [reflexivity |]. split; [reflexivity |].
  split; [intros k Hk; exact (round_exact _ 4 k Hk) |].
  exists scaled, predictions, prediction.
  split; [exact Hp |]. split; [exact H0 |].
  split; [reflexivity |]. split; [reflexivity |].
  exact (np_round_nearest prediction 2).
Qed.

Lemma successful_answer_contents_witness :
  bundle_installed Samples.reference_world
    Samples.linear_regressor Samples.standard_scaler Samples.reference_info ∧
  MainPy.post_predict (Samples.request 22.5 70.0 600.0 6.4) Samples.reference_world
  = (Returned (inr
       {| MainPy.predicted_growth_days := np_round (187 # 10) 2;
          MainPy.input_conditions := Samples.request 22.50 70.00 600.00 6.40;
          MainPy.model_used := "Random Forest";
          MainPy.model_accuracy_r2 := round 0.624 4;
          MainPy.interpretation := "Fast growth - Good conditions" |}),
     Samples.reference_world) ∧
  "Random Forest" = model_name Samples.reference_info ∧
  round 0.624 4 == test_r2 Samples.reference_info.
Proof.
  split; [repeat split; reflexivity |].
  split; [vm_compute; reflexivity |].
  destruct (successful_answer_contents
              (Samples.request 22.5 70.0 600.0 6.4)
              Samples.reference_world Samples.reference_world
              {| MainPy.predicted_growth_days := np_round (187 # 10) 2;
                 MainPy.input_conditions := Samples.request 22.50 70.00 600.00 6.40;
                 MainPy.model_used := "Random Forest";
                 MainPy.model_accuracy_r2 := round 0.624 4;
                 MainPy.interpretation := "Fast growth - Good conditions" |}
              Samples.linear_regressor Samples.standard_scaler Samples.reference_info)
    as (Hname & _ & Hr2 & _);
    [repeat split; reflexivity | vm_compute; reflexivity |].
  split; [exact Hname |]. apply (Hr2 6240%Z). reflexivity.
Defined.

(** With an R2 score of 0.62437 the answer carries 0.6244, and a prediction
    of 14.996 days is answered as 15.0 days together with the category of
    the band below 15. *)
Lemma answer_differs_from_metadata_and_band :
  MainPy.post_predict (Samples.request 22.5 70.0 600.0 6.4) Samples.threshold_world
  = (Returned (inr
       {| MainPy.predicted_growth_days := 1500 # 100;
          MainPy.input_conditions := Samples.request 22.50 70.00 600.00 6.40;
          MainPy.model_used := "Random Forest";
          MainPy.model_accuracy_r2 := 6244 # 10000;
          MainPy.interpretation := "Very fast growth - Excellent conditions" |}),
     Samples.threshold_world) ∧
  test_r2 Samples.threshold_info = 0.62437 ∧
  ¬ (6244 # 10000 == 0.62437) ∧
  MainPy.get_interpretation (1500 # 100) = "Fast growth - Good conditions".
Proof.
  split; [vm_compute; reflexivity |].
  split; [reflexivity |].
  split; [intros H; discriminate H | reflexivity].
Qed.

(** C4: in every successful answer to a request, the reading built by the
    validator is the request rounded to 2 decimals field by field, that
    rounded reading is the row handed to the scaler, and the echoed
    [input_conditions] are exactly the rounded values, whatever the
    precision of the request was. *)
Theorem echo_is_rounded_request (body : gmap string Q) w w'
    (response : MainPy.PredictionOutput) :
  MainPy.post_predict body w = (Returned (inr response), w') →
  ∃ t h d p,
    (body !! "temperature" = Some t ∧ body !! "humidity" = Some h ∧
     body !! "tds" = Some d ∧ body !! "ph" = Some p) ∧
    MainPy.PredictionInput_new body
    = inr {| MainPy.temperature := round t 2; MainPy.humidity := round h 2;
             MainPy.tds := round d 2; MainPy.ph := round p 2 |} ∧
    MainPy.input_conditions response
    = {[ "temperature" := round t 2; "humidity" := round h 2;
         "tds" := round d 2; "ph" := round p 2 ]} ∧
    ∃ model scaler model_info scaled,
      bundle_installed w model scaler model_info ∧
      PyLibs.call_transform scaler
        {| PyLibs.columns := features model_info;
           PyLibs.values := [[round t 2; round h 2; round d 2; round p 2]] |}
      = Returned scaled.
Proof.
  intros Hrun.
  apply post_predict_Returned_inv in Hrun as (input_data & Hnew & Hrun).
  pose proof (PredictionInput_new_inr _ _ Hnew) as (t & h & d & p & Hbody & _ & ->).
  apply predict_Returned_inv in Hrun as (prediction & result & Hrun & ->).
  apply predict_growth_days_Some in Hrun
    as (-> & model & scaler & model_info & scaled & predictions
        & Hb & _ & Ht & _ & _ & ->).
  exists t, h, d, p. split; [exact Hbody |]. split; [exact Hnew |].
  split; [reflexivity |]. exists model, scaler, model_info, scaled. auto.
Qed.

Lemma echo_is_rounded_request_witness :
  MainPy.post_predict (Samples.request 22.504 70.005 600.0 6.4) Samples.reference_world
  = (Returned (inr
       {| MainPy.predicted_growth_days := np_round (187 # 10) 2;
          MainPy.input_conditions := Samples.request 22.50 70.00 600.00 6.40;
          MainPy.model_used := "Random Forest";
          MainPy.model_accuracy_r2 := round 0.624 4;
          MainPy.interpretation := "Fast growth - Good conditions" |}),
     Samples.reference_world) ∧
  ∃ t h d p,
    (Samples.request 22.504 70.005 600.0 6.4 !! "temperature" = Some t ∧
     Samples.request 22.504 70.005 600.0 6.4 !! "humidity" = Some h ∧
     Samples.request 22.504 70.005 600.0 6.4 !! "tds" = Some d ∧
     Samples.request 22.504 70.005 600.0 6.4 !! "ph" = Some p) ∧
    MainPy.PredictionInput_new (Samples.request 22.504 70.005 600.0 6.4)
    = inr {| MainPy.temperature := round t 2; MainPy.humidity := round h 2;
             MainPy.tds := round d 2; MainPy.ph := round p 2 |} ∧
    Samples.request 22.50 70.00 600.00 6.40
    = {[ "temperature" := round t 2; "humidity" := round h 2;
         "tds" := round d 2; "ph" := round p 2 ]} ∧
    ∃ model scaler model_info scaled,
      bundle_installed Samples.reference_world model scaler model_info ∧
      PyLibs.call_transform scaler
        {| PyLibs.columns := features model_info;
           PyLibs.values := [[round t 2; round h 2; round d 2; round p 2]] |}
      = Returned scaled.
Proof.
  split; [vm_compute; reflexivity |].
  apply (echo_is_rounded_request
           (Samples.request 22.504 70.005 600.0 6.4)
           Samples.reference_world Samples.reference_world
           {| MainPy.predicted_growth_days := np_round (187 # 10) 2;
              MainPy.input_conditions := Samples.request 22.50 70.00 600.00 6.40;
              MainPy.model_used := "Random Forest";
              MainPy.model_accuracy_r2 := round 0.624 4;
              MainPy.interpretation := "Fast growth - Good conditions" |}).
  vm_compute; reflexivity.
Defined.

End Assembly.

(** ** Feature framing *)

Section Framing.
Local Open Scope Q_scope.

Lemma with_features_installed w model scaler model_info names :
  bundle_installed w model scaler model_info →
  bundle_installed (with_features names w model_info) model scaler
    {| features := names; model_name := model_name model_info;
       test_r2 := test_r2 model_info |}.
Proof.
  intros (Hm & Hs & Hi). unfold bundle_installed, with_features. cbn [disk].
  rewrite !lookup_insert_ne by done. rewrite lookup_insert_eq. auto.
Qed.

(** C1 (as amended): with four feature names in the metadata, the frame
    handed to the scaler has those names as its column labels, in their
    order, and the single row [temperature; humidity; tds; ph] in this
    fixed order of the reading, whatever the names are; a prediction is what
    the regressor answers on the scaled frame. The feature names only label
    the columns: replacing them by any other four names, in particular
    exchanging two of them, leaves the outcome of the pipeline unchanged
    whenever the scaler computes from the values of the frame alone. *)
Theorem feature_names_label_a_fixed_row w model scaler model_info
    (temperature humidity tds ph : Q) :
  bundle_installed w model scaler model_info →
  length (features model_info) = 4%nat →
  (∀ prediction,
     (∃ result,
        PredictPy.predict_growth_days temperature humidity tds ph w
        = (Returned (Some (prediction, result)), w)) ↔
     (∃ scaled predictions,
        PyLibs.call_transform scaler
          {| PyLibs.columns := features model_info;
             PyLibs.values := [[temperature; humidity; tds; ph]] |} = Returned scaled ∧
        PyLibs.call_predict model scaled = Returned predictions ∧
        predictions !! 0%nat = Some prediction)) ∧
  (∀ names,
     length names = 4%nat →
     label_blind scaler →
     (PredictPy.predict_growth_days temperature humidity tds ph
        (with_features names w model_info)).1
     = (PredictPy.predict_growth_days temperature humidity tds ph w).1).
Proof.
  intros Hb Hlen. split.
  - intros prediction. split.
    + intros [result Hrun].
      apply predict_growth_days_Some in Hrun
        as (_ & model' & scaler' & model_info' & scaled & predictions
            & Hb' & _ & Ht & Hp & H0 & _).
      destruct (bundle_installed_inj _ _ _ _ _ _ _ Hb Hb') as (-> & -> & ->).
      eauto.
    + intros (scaled & predictions & Ht & Hp & H0).
      eexists. exact (predict_growth_days_installed _ _ _ _ _ _ _ _ _ _ _ Hb Hlen Ht Hp H0).
  - intros names Hnames Hblind.
    pose proof (with_features_installed _ _ _ _ names Hb) as Hb'.
    unfold_pipeline.
    rewrite (load_model_installed _ _ _ _ Hb), (load_model_installed _ _ _ _ Hb').
    cbn [features model_name test_r2].
    rewrite !DataFrame_new_row by (cbn [length]; congruence).
    rewrite (Hblind names (features model_info)).
    case_outcomes; reflexivity.
Qed.

Lemma feature_names_label_a_fixed_row_witness :
  bundle_installed Samples.reference_world
    Samples.linear_regressor Samples.standard_scaler Samples.reference_info ∧
  length (features Samples.reference_info) = 4%nat ∧
  (PredictPy.predict_growth_days 22.5 70.0 600.0 6.4
     (with_features Samples.swapped_order Samples.reference_world
        Samples.reference_info)).1
  = (PredictPy.predict_growth_days 22.5 70.0 600.0 6.4 Samples.reference_world).1.
Proof.
  split; [repeat split; reflexivity |]. split; [reflexivity |].
  apply (feature_names_label_a_fixed_row Samples.reference_world
           Samples.linear_regressor Samples.standard_scaler Samples.reference_info
           22.5 70.0 600.0 6.4);
    [repeat split; reflexivity | reflexivity | reflexivity |].
  intros names names' rows. reflexivity.
Defined.

(** The first two feature names exchanged, the same reading: the same
    prediction, 18.7 days. The regressor is not indifferent to the order of
    the values: the reading with temperature and humidity exchanged is
    predicted 32.95 days. *)
Lemma swapped_feature_names_same_prediction :
  Samples.swapped_order = ["humidity"; "temperature"; "tds"; "ph"] ∧
  features Samples.reference_info = ["temperature"; "humidity"; "tds"; "ph"] ∧
  Samples.swapped_world
  = Samples.installed Samples.linear_regressor Samples.standard_scaler
      (Samples.info Samples.swapped_order 0.624) ∧
  (∃ result,
     PredictPy.predict_growth_days 22.5 70.0 600.0 6.4 Samples.reference_world
     = (Returned (Some (187 # 10, result)), Samples.reference_world) ∧
     PredictPy.predict_growth_days 22.5 70.0 600.0 6.4 Samples.swapped_world
     = (Returned (Some (187 # 10, result)), Samples.swapped_world)) ∧
  (∃ result,
     PredictPy.predict_growth_days 70.0 22.5 600.0 6.4 Samples.reference_world
     = (Returned (Some (659 # 20, result)), Samples.reference_world)).
Proof.
  repeat split; try reflexivity; eexists; [split |]; vm_compute; reflexivity.
Qed.

(** A scaler that compares the labels of the frame with the names it was
    fitted on refuses the exchanged names: no prediction, and the handler
    answers with status 422. *)
Example swapped_feature_names_refused_by_named_scaler :
  PredictPy.predict_growth_days 22.5 70.0 600.0 6.4 Samples.named_swapped_world
  = (Raised (ValueError
       "The feature names should match those that were passed during fit."),
     Samples.named_swapped_world) ∧
  MainPy.predict Samples.reference_input Samples.named_swapped_world
  = (Raised (HTTPException 422
       "Validation error: The feature names should match those that were passed during fit."),
     Samples.named_swapped_world).
Proof. split; vm_compute; reflexivity. Qed.

(** C8 (as amended): when the metadata lists a number of feature names
    other than 4, the pipeline fails before the scaler and the regressor are
    called: framing raises a [ValueError], and the handler answers with an
    HTTP error, not with a result. The pipeline does not map the feature
    names to the fields of a reading: with 4 names and a scaler that
    computes from the values of the frame alone, the outcome is the same
    whatever the names are. *)
Theorem feature_count_mismatch w model scaler model_info
    (input_data : MainPy.PredictionInput) :
  bundle_installed w model scaler model_info →
  (length (features model_info) ≠ 4%nat →
     PredictPy.predict_growth_days
       (MainPy.temperature input_data) (MainPy.humidity input_data)
       (MainPy.tds input_data) (MainPy.ph input_data) w
     = (Raised (ValueError (pretty (length (features model_info))
                            +:+ " columns passed, passed data had 4 columns")), w) ∧
     ∃ status_code detail,
       MainPy.predict input_data w = (Raised (HTTPException status_code detail), w)) ∧
  (length (features model_info) = 4%nat →
     label_blind scaler →
     ∀ names,
       length names = 4%nat →
       (PredictPy.predict_growth_days
          (MainPy.temperature input_data) (MainPy.humidity input_data)
          (MainPy.tds input_data) (MainPy.ph input_data)
          (with_features names w model_info)).1
       = (PredictPy.predict_growth_days
            (MainPy.temperature input_data) (MainPy.humidity input_data)
            (MainPy.tds input_data) (MainPy.ph input_data) w).1).
Proof.
  intros Hb. split.
  - intros Hlen.
    assert (PredictPy.predict_growth_days
              (MainPy.temperature input_data) (MainPy.humidity input_data)
              (MainPy.tds input_data) (MainPy.ph input_data) w
            = (Raised (ValueError (pretty (length (features model_info))
                                   +:+ " columns passed, passed data had 4 columns")), w))
      as Hrun.
    { unfold_pipeline. rewrite (load_model_installed _ _ _ _ Hb).
      rewrite DataFrame_new_mismatch by (cbn [length]; congruence). reflexivity. }
    split; [exact Hrun |]. unfold_handler. rewrite Hrun. eexists _, _. reflexivity.
  - intros Hlen Hblind names Hnames.
    pose proof (with_features_installed _ _ _ _ names Hb) as Hb'.
    unfold_pipeline.
    rewrite (load_model_installed _ _ _ _ Hb), (load_model_installed _ _ _ _ Hb').
    cbn [features model_name test_r2].
    rewrite !DataFrame_new_row by (cbn [length]; congruence).
    rewrite (Hblind names (features model_info)).
    case_outcomes; reflexivity.
Qed.

Lemma feature_count_mismatch_witness :
  (bundle_installed Samples.three_names_world
     Samples.linear_regressor Samples.standard_scaler Samples.three_names_info ∧
   length (features Samples.three_names_info) ≠ 4%nat ∧
   PredictPy.predict_growth_days 22.5 70.0 600.0 6.4 Samples.three_names_world
   = (Raised (ValueError "3 columns passed, passed data had 4 columns"),
      Samples.three_names_world) ∧
   ∃ status_code detail,
     MainPy.predict Samples.reference_input Samples.three_names_world
     = (Raised (HTTPException status_code detail), Samples.three_names_world)) ∧
  (bundle_installed Samples.reference_world
     Samples.linear_regressor Samples.standard_scaler Samples.reference_info ∧
   length (features Samples.reference_info) = 4%nat ∧
   label_blind Samples.standard_scaler ∧
   length Samples.unknown_names = 4%nat ∧
   (PredictPy.predict_growth_days 22.5 70.0 600.0 6.4
      (with_features Samples.unknown_names Samples.reference_world
         Samples.reference_info)).1
   = (PredictPy.predict_growth_days 22.5 70.0 600.0 6.4 Samples.reference_world).1).
Proof.
  assert (length (features Samples.three_names_info) ≠ 4%nat) as Hlen by (cbn; lia).
  assert (label_blind Samples.standard_scaler) as Hblind
    by (intros names names' rows; reflexivity).
  split.
  - split; [repeat split; reflexivity |]. split; [exact Hlen |].
    apply (proj1 (feature_count_mismatch Samples.three_names_world
                    Samples.linear_regressor Samples.standard_scaler
                    Samples.three_names_info Samples.reference_input
                    ltac:(repeat split; reflexivity))).
    exact Hlen.
  - split; [repeat split; reflexivity |]. split; [reflexivity |].
    split; [exact Hblind |]. split; [reflexivity |].
    apply (proj2 (feature_count_mismatch Samples.reference_world
                    Samples.linear_regressor Samples.standard_scaler
                    Samples.reference_info Samples.reference_input
                    ltac:(repeat split; reflexivity)));
      [reflexivity | exact Hblind | reflexivity].
Defined.

(** Four feature names none of which is a field of a reading: the pipeline
    predicts all the same, and the request is answered. *)
Lemma unknown_feature_names_accepted :
  Samples.unknown_names = ["alpha"; "beta"; "gamma"; "delta"] ∧
  (∃ result,
     PredictPy.predict_growth_days 22.5 70.0 600.0 6.4 Samples.unknown_names_world
     = (Returned (Some (187 # 10, result)), Samples.unknown_names_world)) ∧
  (∃ response,
     MainPy.post_predict (Samples.request 22.5 70.0 600.0 6.4) Samples.unknown_names_world
     = (Returned (inr response), Samples.unknown_names_world)).
Proof.
  split; [reflexivity |]. split; eexists; vm_compute; reflexivity.
Qed.

End Framing.

(** ** Missing artifacts *)

Section MissingArtifacts.

(** C7 (as amended): when one of the three artifacts is absent and the
    ones read before it load, [load_model] prints one line that names the
    first absent file, in the order regressor, scaler, metadata, and returns
    no bundle; [predict_growth_days] then returns no prediction and the
    handler answers with status 500. The list of all the absent files is
    what [check_model_files] computes. *)
Theorem missing_artifact_reported w path (input_data : MainPy.PredictionInput) :
  first_absent w path →
  PredictPy.load_model w
  = (Returned None,
     printed w ("Error: Required file not found - "
                +:+ "[Errno 2] No such file or directory: '" +:+ path +:+ "'")) ∧
  PredictPy.predict_growth_days
    (MainPy.temperature input_data) (MainPy.humidity input_data)
    (MainPy.tds input_data) (MainPy.ph input_data) w
  = (Returned None,
     printed w ("Error: Required file not found - "
                +:+ "[Errno 2] No such file or directory: '" +:+ path +:+ "'")) ∧
  MainPy.predict input_data w
  = (Raised (HTTPException 500
       ("Prediction error: 500: "
        +:+ "Failed to load model or make prediction. Please check model files.")),
     printed w ("Error: Required file not found - "
                +:+ "[Errno 2] No such file or directory: '" +:+ path +:+ "'")) ∧
  (MainPy.check_model_files w).1
  = Returned (false, filter (λ file, disk w !! file = None) MainPy.required_files).
Proof.
  intros Ha.
  pose proof (predict_growth_days_first_absent w path
                (MainPy.temperature input_data) (MainPy.humidity input_data)
                (MainPy.tds input_data) (MainPy.ph input_data) Ha) as Hrun.
  split; [exact (load_model_first_absent _ _ Ha) |].
  split; [exact Hrun |].
  split.
  - unfold_handler. rewrite Hrun. reflexivity.
  - rewrite check_model_files_lists_missing. do 2 f_equal.
    apply bool_decide_eq_false. unfold MainPy.required_files.
    rewrite !Forall_cons. intros (H1 & H2 & H3 & _).
    destruct Ha as [Hm | model Hm Hs | model scaler Hm Hs Hi];
      [rewrite Hm in H1; by destruct H1
      | rewrite Hs in H2; by destruct H2
      | rewrite Hi in H3; by destruct H3].
Qed.

Lemma missing_artifact_reported_witness :
  first_absent Samples.scaler_missing "scaler.pkl" ∧
  PredictPy.load_model Samples.scaler_missing
  = (Returned None,
     printed Samples.scaler_missing
       "Error: Required file not found - [Errno 2] No such file or directory: 'scaler.pkl'") ∧
  PredictPy.predict_growth_days 22.5 70.0 600.0 6.4 Samples.scaler_missing
  = (Returned None,
     printed Samples.scaler_missing
       "Error: Required file not found - [Errno 2] No such file or directory: 'scaler.pkl'") ∧
  MainPy.predict Samples.reference_input Samples.scaler_missing
  = (Raised (HTTPException 500
       "Prediction error: 500: Failed to load model or make prediction. Please check model files."),
     printed Samples.scaler_missing
       "Error: Required file not found - [Errno 2] No such file or directory: 'scaler.pkl'") ∧
  (MainPy.check_model_files Samples.scaler_missing).1
  = Returned (false,
              filter (λ file, disk Samples.scaler_missing !! file = None)
                MainPy.required_files).
Proof.
  assert (first_absent Samples.scaler_missing "scaler.pkl") as Ha
    by (apply (absent_scaler _ Samples.linear_regressor); reflexivity).
  split; [exact Ha |].
  exact (missing_artifact_reported Samples.scaler_missing "scaler.pkl"
           Samples.reference_input Ha).
Defined.

(** In an empty directory the three artifacts are absent; the loader prints
    a single line, which names the regressor file and neither the scaler
    file nor the metadata file. *)
Lemma only_first_absent_file_named :
  Forall (λ file, disk Samples.empty_directory !! file = None) MainPy.required_files ∧
  PredictPy.load_model Samples.empty_directory
  = (Returned None,
     printed Samples.empty_directory
       "Error: Required file not found - [Errno 2] No such file or directory: 'best_model.pkl'") ∧
  mentions
    "Error: Required file not found - [Errno 2] No such file or directory: 'best_model.pkl'"
    "best_model.pkl" = true ∧
  mentions
    "Error: Required file not found - [Errno 2] No such file or directory: 'best_model.pkl'"
    "scaler.pkl" = false ∧
  mentions
    "Error: Required file not found - [Errno 2] No such file or directory: 'best_model.pkl'"
    "model_info.json" = false.
Proof.
  split; [repeat constructor |]. repeat split; vm_compute; reflexivity.
Qed.

End MissingArtifacts.

(** ** Repeated calls *)

Section RepeatedCalls.

(** Two calls in a row with the same reading, the artifacts being what
    they are on disk, give the same outcome; a call never changes the
    files, and a call that yields a prediction leaves the whole world,
    console included, as it found it. The scaler and the regressor are
    functions here: that they compute the same floating-point number twice
    is assumed, not shown. *)
Lemma predict_growth_days_twice w (temperature humidity tds ph : Q) :
  (PredictPy.predict_growth_days temperature humidity tds ph
     (PredictPy.predict_growth_days temperature humidity tds ph w).2).1
  = (PredictPy.predict_growth_days temperature humidity tds ph w).1 ∧
  disk (PredictPy.predict_growth_days temperature humidity tds ph w).2 = disk w ∧
  (∀ prediction result,
     (PredictPy.predict_growth_days temperature humidity tds ph w).1
     = Returned (Some (prediction, result)) →
     (PredictPy.predict_growth_days temperature humidity tds ph w).2 = w).
Proof.
  split; [| split].
  - apply predict_growth_days_reads_disk, predict_growth_days_disk.
  - apply predict_growth_days_disk.
  - intros prediction result Hrun.
    destruct (PredictPy.predict_growth_days temperature humidity tds ph w)
      as [r w1] eqn:E.
    cbn in Hrun. subst r. apply predict_growth_days_Some in E. tauto.
Qed.

Example reference_prediction_repeats :
  PredictPy.predict_growth_days 22.5 70.0 600.0 6.4
    (PredictPy.predict_growth_days 22.5 70.0 600.0 6.4 Samples.reference_world).2
  = PredictPy.predict_growth_days 22.5 70.0 600.0 6.4 Samples.reference_world.
Proof. vm_compute. reflexivity. Qed.

End RepeatedCalls.

(** * Further properties of the code *)

(** ** Rounding and the bounds of the fields *)

Section RoundingBounds.
Local Open Scope Q_scope.

Lemma round_half_even_ge (x : Q) (a : Z) :
  inject_Z a <= x → (a <= round_half_even x)%Z.
Proof.
  intros Ha. unfold round_half_even.
  assert (a <= Qfloor x)%Z as Hf.
  { rewrite <- (Qfloor_Z a). apply Qfloor_resp_le. exact Ha. }
  destruct (x - inject_Z (Qfloor x) ?= 1 # 2); [destruct (Z.even _) | |]; lia.
Qed.

Lemma round_half_even_le (x : Q) (b : Z) :
  x <= inject_Z b → (round_half_even x <= b)%Z.
Proof.
  intros Hb. unfold round_half_even.
  assert (Qfloor x <= b)%Z as Hf.
  { rewrite <- (Qfloor_Z b). apply Qfloor_resp_le. exact Hb. }
  destruct (Z.eq_dec (Qfloor x) b) as [He | Hne].
  - pose proof (Qfloor_le x) as Hlo. rewrite He in *.
    destruct (Qcompare_spec (x - inject_Z b) (1 # 2)) as [H | H | H];
      [exfalso; lra | lia | exfalso; lra].
  - destruct (x - inject_Z (Qfloor x) ?= 1 # 2); [destruct (Z.even _) | |]; lia.
Qed.

Lemma scaled_ge (x p a : Q) : 0 < p → a / p <= x → a <= x * p.
Proof.
  intros Hp Ha. apply (Qmult_le_r _ _ p Hp) in Ha.
  assert (a / p * p == a) as He by (field; lra). lra.
Qed.

Lemma scaled_le (x p b : Q) : 0 < p → x <= b / p → x * p <= b.
Proof.
  intros Hp Hb. apply (Qmult_le_r _ _ p Hp) in Hb.
  assert (b / p * p == b) as He by (field; lra). lra.
Qed.

Lemma unscaled_le (k p b : Q) : 0 < p → k <= b → k / p <= b / p.
Proof.
  intros Hp Hk. unfold Qdiv. apply Qmult_le_compat_r; [exact Hk |].
  apply Qlt_le_weak, Qinv_lt_0_compat. exact Hp.
Qed.

(** Rounding to [n] decimals does not cross a number that has at most [n]
    decimals itself. *)
Lemma round_ge (x : Q) (n : nat) (a : Z) :
  inject_Z a / inject_Z (10 ^ Z.of_nat n) <= x →
  inject_Z a / inject_Z (10 ^ Z.of_nat n) <= round x n.
Proof.
  intros Ha. unfold round. pose proof (pow10_pos n) as Hp.
  apply unscaled_le; [exact Hp |]. rewrite <- Zle_Qle.
  apply round_half_even_ge, scaled_ge; assumption.
Qed.

Lemma round_le (x : Q) (n : nat) (b : Z) :
  x <= inject_Z b / inject_Z (10 ^ Z.of_nat n) →
  round x n <= inject_Z b / inject_Z (10 ^ Z.of_nat n).
Proof.
  intros Hb. unfold round. pose proof (pow10_pos n) as Hp.
  apply unscaled_le; [exact Hp |]. rewrite <- Zle_Qle.
  apply round_half_even_le, scaled_le; assumption.
Qed.

(** A rounded number is left as it is by a second rounding. *)
Lemma round_idempotent (x : Q) (n : nat) : round (round x n) n = round x n.
Proof.
  unfold round at 1 3. pose proof (pow10_pos n) as Hp.
  set (p := inject_Z (10 ^ Z.of_nat n)) in *.
  f_equal. f_equal. apply round_half_even_Z.
  unfold round. fold p. field. lra.
Qed.

(** The bounds of the four fields have at most two decimals. *)
Lemma round2_within (lo hi : Z) (v : Q) :
  inject_Z lo / 100 <= v → v <= inject_Z hi / 100 →
  inject_Z lo / 100 <= round v 2 ∧ round v 2 <= inject_Z hi / 100.
Proof.
  intros Hlo Hhi. split; [exact (round_ge v 2 lo Hlo) | exact (round_le v 2 hi Hhi)].
Qed.

End RoundingBounds.

(** ** Doubles and thresholds *)

Section DoubleThresholds.
Local Open Scope Q_scope.

Lemma ulp_small (e : Z) :
  (e <= 0)%Z → 2 ^ e * inject_Z (2 ^ (- e)) == 1.
Proof.
  intros He. replace e with (- - e)%Z at 1 by lia. rewrite Qpower_opp.
  change 2 with (inject_Z 2). rewrite <- Zpower_Qpower by lia.
  assert (0 < 2 ^ (- e))%Z as Hm by (apply Z.pow_pos_nonneg; lia).
  assert (0 < inject_Z (2 ^ (- e)))
    by (change 0 with (inject_Z 0); by rewrite <- Zlt_Qlt).
  field. lra.
Qed.

Lemma ulp_large (e : Z) : (0 < e)%Z → 2 <= 2 ^ e.
Proof.
  intros He. change 2 with (inject_Z 2). rewrite <- Zpower_Qpower by lia.
  rewrite <- Zle_Qle.
  assert (2 ^ 1 <= 2 ^ e)%Z by (apply Z.pow_le_mono_r; lia). lia.
Qed.

(** The unit in the last place of a double, and what is known of it. *)
Lemma binary64_ulp (x : Q) :
  ¬ x == 0 →
  ∃ u : Q,
    0 < u ∧
    binary64 x = inject_Z (round_half_even (x / u)) * u ∧
    u * inject_Z (2 ^ 52) <= Qabs x ∧
    ((∃ m : Z, (0 < m)%Z ∧ u * inject_Z m == 1) ∨ 2 <= u).
Proof.
  intros Hx. exists (2 ^ (ilog2 x - 52)).
  split; [apply two_power_pos |]. split.
  - unfold binary64. destruct (Qeq_bool x 0) eqn:E; [| reflexivity].
    apply Qeq_bool_iff in E. contradiction.
  - split.
    + pose proof (ilog2_le x Hx) as Hl.
      assert (2 ^ ilog2 x == 2 ^ (ilog2 x - 52) * inject_Z (2 ^ 52)) as Hs.
      { rewrite (Zpower_Qpower 2 52) by lia. change (inject_Z 2) with 2.
        rewrite <- Qpower_plus by discriminate. f_equiv. lia. }
      rewrite Hs in Hl. exact Hl.
    + destruct (Z_le_gt_dec (ilog2 x - 52) 0) as [He | He].
      * left. exists (2 ^ (- (ilog2 x - 52)))%Z.
        split; [apply Z.pow_pos_nonneg; lia | by apply ulp_small].
      * right. apply ulp_large. lia.
Qed.

Lemma scaled_round_le (x u : Q) (B : Z) :
  0 < u → x <= inject_Z B * u →
  inject_Z (round_half_even (x / u)) * u <= inject_Z B * u.
Proof.
  intros Hu Hx. apply Qmult_le_compat_r; [| lra].
  rewrite <- Zle_Qle. apply round_half_even_le.
  apply Qle_shift_div_r; [exact Hu | exact Hx].
Qed.

Lemma scaled_round_ge (x u : Q) (A : Z) :
  0 < u → inject_Z A * u <= x →
  inject_Z A * u <= inject_Z (round_half_even (x / u)) * u.
Proof.
  intros Hu Hx. apply Qmult_le_compat_r; [| lra].
  rewrite <- Zle_Qle. apply round_half_even_ge.
  apply Qle_shift_div_l; [exact Hu | exact Hx].
Qed.

(** A double does not cross an integer of at most 53 bits: such an
    integer is a double itself. *)
Lemma binary64_le_int (N : Z) (x : Q) :
  (- 2 ^ 52 <= N <= 2 ^ 52)%Z → x <= inject_Z N → binary64 x <= inject_Z N.
Proof.
  intros HN Hx. destruct (Qeq_dec x 0) as [E | Hx0].
  - unfold binary64. rewrite (proj2 (Qeq_bool_iff x 0) E). rewrite E in Hx. exact Hx.
  - destruct (binary64_ulp x Hx0) as (u & Hu & -> & Hl & [(m & Hm & Hum) | Hu2]).
    + assert (inject_Z N == inject_Z (N * m) * u) as HNm
        by (rewrite inject_Z_mult, <- Qmult_assoc, (Qmult_comm _ u), Hum; ring).
      rewrite HNm. apply scaled_round_le; [exact Hu |]. by rewrite <- HNm.
    + assert (inject_Z N <= inject_Z (2 ^ 52)) as HN1 by (rewrite <- Zle_Qle; lia).
      assert (inject_Z (- 2 ^ 52) <= inject_Z N) as HN2 by (rewrite <- Zle_Qle; lia).
      assert (0 < inject_Z (2 ^ 52)) as H52 by reflexivity.
      assert (inject_Z (- 2 ^ 52) == - inject_Z (2 ^ 52)) as Hneg by reflexivity.
      destruct (Qlt_le_dec x 0) as [Hneg' | Hpos].
      * rewrite Qabs_neg in Hl by lra.
        assert (x <= inject_Z (- 2 ^ 52) * u) as Hy by (rewrite Hneg; lra).
        apply (scaled_round_le x u _ Hu) in Hy. rewrite Hneg in Hy, HN2.
        set (T := inject_Z (2 ^ 52)) in *. nra.
      * rewrite Qabs_pos in Hl by exact Hpos.
        set (T := inject_Z (2 ^ 52)) in *. exfalso. nra.
Qed.

Lemma binary64_ge_int (N : Z) (x : Q) :
  (- 2 ^ 52 <= N <= 2 ^ 52)%Z → inject_Z N <= x → inject_Z N <= binary64 x.
Proof.
  intros HN Hx. destruct (Qeq_dec x 0) as [E | Hx0].
  - unfold binary64. rewrite (proj2 (Qeq_bool_iff x 0) E). rewrite E in Hx. exact Hx.
  - destruct (binary64_ulp x Hx0) as (u & Hu & -> & Hl & [(m & Hm & Hum) | Hu2]).
    + assert (inject_Z N == inject_Z (N * m) * u) as HNm
        by (rewrite inject_Z_mult, <- Qmult_assoc, (Qmult_comm _ u), Hum; ring).
      rewrite HNm. apply scaled_round_ge; [exact Hu |]. by rewrite <- HNm.
    + assert (inject_Z N <= inject_Z (2 ^ 52)) as HN1 by (rewrite <- Zle_Qle; lia).
      assert (inject_Z (- 2 ^ 52) <= inject_Z N) as HN2 by (rewrite <- Zle_Qle; lia).
      assert (0 < inject_Z (2 ^ 52)) as H52 by reflexivity.
      assert (inject_Z (- 2 ^ 52) == - inject_Z (2 ^ 52)) as Hneg by reflexivity.
      destruct (Qlt_le_dec 0 x) as [Hpos | Hneg'].
      * rewrite Qabs_pos in Hl by lra.
        assert (inject_Z (2 ^ 52) * u <= x) as Hy by lra.
        apply (scaled_round_ge x u _ Hu) in Hy. rewrite Hneg in HN2.
        set (T := inject_Z (2 ^ 52)) in *. nra.
      * rewrite Qabs_neg in Hl by exact Hneg'. rewrite Hneg in HN2.
        set (T := inject_Z (2 ^ 52)) in *. exfalso. nra.
Qed.

(** numpy's rounding to [n] decimals does not cross a number of at most
    [n] decimals whose numerator has at most 53 bits. *)
Lemma np_round_ge (x : Q) (n : nat) (a : Z) :
  (- 2 ^ 52 <= a <= 2 ^ 52)%Z →
  inject_Z a / inject_Z (10 ^ Z.of_nat n) <= x →
  inject_Z a / inject_Z (10 ^ Z.of_nat n) <= np_round x n.
Proof.
  intros Ha Hx. unfold np_round. pose proof (pow10_pos n) as Hp.
  apply unscaled_le; [exact Hp |]. rewrite <- Zle_Qle.
  apply round_half_even_ge, binary64_ge_int; [exact Ha |].
  apply scaled_ge; assumption.
Qed.

Lemma np_round_le (x : Q) (n : nat) (b : Z) :
  (- 2 ^ 52 <= b <= 2 ^ 52)%Z →
  x <= inject_Z b / inject_Z (10 ^ Z.of_nat n) →
  np_round x n <= inject_Z b / inject_Z (10 ^ Z.of_nat n).
Proof.
  intros Hb Hx. unfold np_round. pose proof (pow10_pos n) as Hp.
  apply unscaled_le; [exact Hp |]. rewrite <- Zle_Qle.
  apply round_half_even_le, binary64_le_int; [exact Hb |].
  apply scaled_le; assumption.
Qed.

End DoubleThresholds.

(** ** More on the input validator *)

Section ValidatedReadings.
Local Open Scope Q_scope.

Lemma body_of_lookup (input_data : MainPy.PredictionInput) :
  body_of input_data !! "temperature" = Some (MainPy.temperature input_data) ∧
  body_of input_data !! "humidity" = Some (MainPy.humidity input_data) ∧
  body_of input_data !! "tds" = Some (MainPy.tds input_data) ∧
  body_of input_data !! "ph" = Some (MainPy.ph input_data).
Proof. repeat split; reflexivity. Qed.

Lemma validated_inl_loc ge le name validator body err :
  MainPy.validated (MainPy.Field ge le name) validator name body = inl err →
  MainPy.loc err = name.
Proof.
  unfold MainPy.validated.
  destruct (MainPy.Field ge le name body) as [e | v] eqn:Hf.
  - intros [= <-]. exact (Field_inl _ _ _ _ _ Hf).
  - destruct (validator v); [discriminate | by intros [= <-]].
Qed.

Lemma validated_missing ge le name validator body :
  body !! name = None →
  MainPy.validated (MainPy.Field ge le name) validator name body
  = inl {| MainPy.loc := name; MainPy.what := MainPy.missing |}.
Proof. intros Hn. unfold MainPy.validated, MainPy.Field. rewrite Hn. reflexivity. Qed.

Lemma within_after_round (lo hi : Z) (ge le v : Q) :
  ge == inject_Z lo / 100 → le == inject_Z hi / 100 →
  ge <= v → v <= le → ge <= round v 2 ∧ round v 2 <= le.
Proof.
  intros Hge Hle Hlo Hhi. rewrite Hge, Hle in *.
  split; [exact (round_ge v 2 lo Hlo) | exact (round_le v 2 hi Hhi)].
Qed.

(** A reading within the bounds is accepted when sent as a request body,
    and carried forward rounded. *)
Lemma PredictionInput_new_body_of (input_data : MainPy.PredictionInput) :
  18.0 <= MainPy.temperature input_data → MainPy.temperature input_data <= 35.0 →
  50.0 <= MainPy.humidity input_data → MainPy.humidity input_data <= 80.0 →
  400.0 <= MainPy.tds input_data → MainPy.tds input_data <= 800.0 →
  6.0 <= MainPy.ph input_data → MainPy.ph input_data <= 7.0 →
  MainPy.PredictionInput_new (body_of input_data)
  = inr {| MainPy.temperature := round (MainPy.temperature input_data) 2;
           MainPy.humidity := round (MainPy.humidity input_data) 2;
           MainPy.tds := round (MainPy.tds input_data) 2;
           MainPy.ph := round (MainPy.ph input_data) 2 |}.
Proof.
  intros. destruct (body_of_lookup input_data) as (Ht & Hh & Hd & Hp).
  unfold MainPy.PredictionInput_new.
  destruct (validated_cases _ _ _ _ _ _ validate_temperature_rounds Ht)
    as [(_ & _ & ->) | (N & _)]; [| tauto].
  destruct (validated_cases _ _ _ _ _ _ validate_humidity_rounds Hh)
    as [(_ & _ & ->) | (N & _)]; [| tauto].
  destruct (validated_cases _ _ _ _ _ _ validate_tds_rounds Hd)
    as [(_ & _ & ->) | (N & _)]; [| tauto].
  destruct (validated_cases _ _ _ _ _ _ validate_ph_rounds Hp)
    as [(_ & _ & ->) | (N & _)]; [| tauto].
  reflexivity.
Qed.

(** X1: the fields of every reading that the validator builds lie within
    the inclusive bounds of the model: rounding to two decimals does not
    take an accepted value out of its range. *)
Theorem validated_reading_within_bounds (body : gmap string Q)
    (input_data : MainPy.PredictionInput) :
  MainPy.PredictionInput_new body = inr input_data →
  (18.0 <= MainPy.temperature input_data ∧ MainPy.temperature input_data <= 35.0) ∧
  (50.0 <= MainPy.humidity input_data ∧ MainPy.humidity input_data <= 80.0) ∧
  (400.0 <= MainPy.tds input_data ∧ MainPy.tds input_data <= 800.0) ∧
  (6.0 <= MainPy.ph input_data ∧ MainPy.ph input_data <= 7.0).
Proof.
  intros Hnew.
  apply PredictionInput_new_inr in Hnew
    as (t & h & d & p & _ & ((? & ?) & (? & ?) & (? & ?) & (? & ?)) & ->).
  cbn [MainPy.temperature MainPy.humidity MainPy.tds MainPy.ph].
  split; [apply (within_after_round 1800 3500); done |].
  split; [apply (within_after_round 5000 8000); done |].
  split; [apply (within_after_round 40000 80000); done |].
  apply (within_after_round 600 700); done.
Qed.

Lemma validated_reading_within_bounds_witness :
  MainPy.PredictionInput_new (Samples.request 34.999 50.001 799.996 6.004)
  = inr {| MainPy.temperature := 35.00; MainPy.humidity := 50.00;
           MainPy.tds := 800.00; MainPy.ph := 6.00 |} ∧
  (18.0 <= 35.00 ∧ 35.00 <= 35.0) ∧ (50.0 <= 50.00 ∧ 50.00 <= 80.0) ∧
  (400.0 <= 800.00 ∧ 800.00 <= 800.0) ∧ (6.0 <= 6.00 ∧ 6.00 <= 7.0).
Proof.
  split; [vm_compute; reflexivity |].
  apply (validated_reading_within_bounds
           (Samples.request 34.999 50.001 799.996 6.004)
           {| MainPy.temperature := 35.00; MainPy.humidity := 50.00;
              MainPy.tds := 800.00; MainPy.ph := 6.00 |}).
  vm_compute; reflexivity.
Defined.

(** A validated reading sent again as a request body is accepted and is
    the reading that comes out. *)
Lemma revalidation (body : gmap string Q) (input_data : MainPy.PredictionInput) :
  MainPy.PredictionInput_new body = inr input_data →
  MainPy.PredictionInput_new (body_of input_data) = inr input_data.
Proof.
  intros Hnew.
  pose proof (PredictionInput_new_inr _ _ Hnew)
    as (t & h & d & p & _ & ((? & ?) & (? & ?) & (? & ?) & (? & ?)) & Hin).
  assert (Hbounds :
    (18.0 <= MainPy.temperature input_data ∧ MainPy.temperature input_data <= 35.0) ∧
    (50.0 <= MainPy.humidity input_data ∧ MainPy.humidity input_data <= 80.0) ∧
    (400.0 <= MainPy.tds input_data ∧ MainPy.tds input_data <= 800.0) ∧
    (6.0 <= MainPy.ph input_data ∧ MainPy.ph input_data <= 7.0)).
  { subst input_data. cbn [MainPy.temperature MainPy.humidity MainPy.tds MainPy.ph].
    split; [apply (within_after_round 1800 3500); done |].
    split; [apply (within_after_round 5000 8000); done |].
    split; [apply (within_after_round 40000 80000); done |].
    apply (within_after_round 600 700); done. }
  destruct Hbounds as ((? & ?) & (? & ?) & (? & ?) & (? & ?)).
  rewrite PredictionInput_new_body_of by assumption.
  subst input_data. cbn [MainPy.temperature MainPy.humidity MainPy.tds MainPy.ph].
  rewrite !round_idempotent. reflexivity.
Qed.

End ValidatedReadings.

(** ** Requests that are rejected, requests that are sent again *)

Section Requests.
Local Open Scope Q_scope.

Lemma predict_answer_echo (input_data : MainPy.PredictionInput) w w'
    (response : MainPy.PredictionOutput) :
  MainPy.predict input_data w = (Returned response, w') →
  MainPy.input_conditions response = body_of input_data.
Proof.
  intros Hrun.
  apply predict_Returned_inv in Hrun as (prediction & result & Hrun & ->).
  apply predict_growth_days_Some in Hrun as (_ & ? & ? & ? & ? & ? & _ & _ & _ & _ & _ & ->).
  reflexivity.
Qed.

(** X2: the conditions echoed in a successful answer, sent again as the
    body of a request in the same world, are accepted by the validator
    unchanged and get the very same answer. *)
Theorem echoed_conditions_resubmitted (body : gmap string Q) w w'
    (response : MainPy.PredictionOutput) :
  MainPy.post_predict body w = (Returned (inr response), w') →
  MainPy.post_predict (MainPy.input_conditions response) w
  = (Returned (inr response), w').
Proof.
  intros Hrun.
  apply post_predict_Returned_inv in Hrun as (input_data & Hnew & Hrun).
  rewrite (predict_answer_echo _ _ _ _ Hrun).
  unfold MainPy.post_predict. rewrite (revalidation _ _ Hnew).
  unfold mbind, mret, Py_bind, Py_ret. rewrite Hrun. reflexivity.
Qed.

Lemma echoed_conditions_resubmitted_witness :
  MainPy.post_predict (Samples.request 22.504 70.005 600.0 6.4) Samples.reference_world
  = (Returned (inr
       {| MainPy.predicted_growth_days := np_round (187 # 10) 2;
          MainPy.input_conditions := Samples.request 22.50 70.00 600.00 6.40;
          MainPy.model_used := "Random Forest";
          MainPy.model_accuracy_r2 := round 0.624 4;
          MainPy.interpretation := "Fast growth - Good conditions" |}),
     Samples.reference_world) ∧
  MainPy.post_predict (Samples.request 22.50 70.00 600.00 6.40) Samples.reference_world
  = (Returned (inr
       {| MainPy.predicted_growth_days := np_round (187 # 10) 2;
          MainPy.input_conditions := Samples.request 22.50 70.00 600.00 6.40;
          MainPy.model_used := "Random Forest";
          MainPy.model_accuracy_r2 := round 0.624 4;
          MainPy.interpretation := "Fast growth - Good conditions" |}),
     Samples.reference_world).
Proof.
  split; [vm_compute; reflexivity |].
  apply (echoed_conditions_resubmitted
           (Samples.request 22.504 70.005 600.0 6.4)
           Samples.reference_world Samples.reference_world
           {| MainPy.predicted_growth_days := np_round (187 # 10) 2;
              MainPy.input_conditions := Samples.request 22.50 70.00 600.00 6.40;
              MainPy.model_used := "Random Forest";
              MainPy.model_accuracy_r2 := round 0.624 4;
              MainPy.interpretation := "Fast growth - Good conditions" |}).
  vm_compute; reflexivity.
Defined.

Lemma post_predict_rejected (body : gmap string Q) w w'
    (errors : list MainPy.ErrorDetail) :
  MainPy.post_predict body w = (Returned (inl errors), w') →
  w' = w ∧ MainPy.PredictionInput_new body = inl errors.
Proof.
  unfold MainPy.post_predict.
  destruct (MainPy.PredictionInput_new body) as [errs | input_data].
  - intros [= <- <-]. auto.
  - unfold mbind, mret, Py_bind, Py_ret.
    destruct (MainPy.predict input_data w) as [[r | e] w1]; discriminate.
Qed.

Ltac validated_result validator :=
  let E := fresh "E" in
  let err := fresh "err" in
  match goal with
  | |- context [MainPy.validated ?f validator ?name ?body] =>
      destruct (MainPy.validated f validator name body) as [err | ?] eqn:E;
      [apply validated_inl_loc in E; destruct err; cbn [MainPy.loc] in E; subst |]
  end.

Ltac names_sublist :=
  repeat first [apply sublist_nil | apply sublist_skip | apply sublist_cons].

(** X4: a request that is answered with validation errors has not touched
    the files nor the console; the errors are never an empty list, and they
    are about distinct fields, in the order temperature, humidity, tds, ph
    (at most one error for a field). *)
Theorem rejected_request_errors (body : gmap string Q) w w'
    (errors : list MainPy.ErrorDetail) :
  MainPy.post_predict body w = (Returned (inl errors), w') →
  w' = w ∧ errors ≠ [] ∧ sublist (map MainPy.loc errors) field_names.
Proof.
  intros Hrun. apply post_predict_rejected in Hrun as [-> Hnew].
  split; [reflexivity |]. revert Hnew. unfold MainPy.PredictionInput_new, field_names.
  validated_result MainPy.validate_temperature;
    validated_result MainPy.validate_humidity;
    validated_result MainPy.validate_tds;
    validated_result MainPy.validate_ph;
    intros Hnew; first [discriminate Hnew | injection Hnew as <-];
    (split; [discriminate | cbn [MainPy.errors_of app map MainPy.loc]; names_sublist]).
Qed.

Lemma rejected_request_errors_witness :
  MainPy.post_predict (Samples.request 15.0 70.0 600.0 7.5) Samples.empty_directory
  = (Returned (inl [{| MainPy.loc := "temperature"; MainPy.what := MainPy.not_ge 18.0 |};
                    {| MainPy.loc := "ph"; MainPy.what := MainPy.not_le 7.0 |}]),
     Samples.empty_directory) ∧
  Samples.empty_directory = Samples.empty_directory ∧
  [{| MainPy.loc := "temperature"; MainPy.what := MainPy.not_ge 18.0 |};
   {| MainPy.loc := "ph"; MainPy.what := MainPy.not_le 7.0 |}] ≠ [] ∧
  sublist ["temperature"; "ph"] field_names.
Proof.
  split; [vm_compute; reflexivity |].
  apply (rejected_request_errors (Samples.request 15.0 70.0 600.0 7.5)
           Samples.empty_directory Samples.empty_directory
           [{| MainPy.loc := "temperature"; MainPy.what := MainPy.not_ge 18.0 |};
            {| MainPy.loc := "ph"; MainPy.what := MainPy.not_le 7.0 |}]).
  vm_compute; reflexivity.
Defined.

(** X3: a body that lacks one of the four fields is rejected whatever the
    other fields are, with an error that says that this field is missing
    (not that it is out of range), and nothing is loaded or printed. *)
Theorem missing_field_reported (body : gmap string Q) (name : string) w :
  name ∈ field_names →
  body !! name = None →
  ∃ errors,
    MainPy.post_predict body w = (Returned (inl errors), w) ∧
    {| MainPy.loc := name; MainPy.what := MainPy.missing |} ∈ errors.
Proof.
  intros Hname Hnone. unfold MainPy.post_predict, MainPy.PredictionInput_new.
  unfold field_names in Hname. rewrite !elem_of_cons, elem_of_nil in Hname.
  destruct Hname as [-> | [-> | [-> | [-> | []]]]];
    rewrite (validated_missing _ _ _ _ _ Hnone);
    repeat match goal with
           | |- context [MainPy.validated ?f ?v ?n body] =>
               destruct (MainPy.validated f v n body)
           end;
    eexists; (split; [reflexivity |]);
    cbn [MainPy.errors_of app]; rewrite ?elem_of_cons; auto 10.
Qed.

Lemma missing_field_reported_witness :
  "ph" ∈ field_names ∧
  ({[ "temperature" := 22.5; "humidity" := 70.0; "tds" := 600.0 ]} : gmap string Q)
    !! "ph" = None ∧
  ∃ errors,
    MainPy.post_predict {[ "temperature" := 22.5; "humidity" := 70.0; "tds" := 600.0 ]}
      Samples.reference_world
    = (Returned (inl errors), Samples.reference_world) ∧
    {| MainPy.loc := "ph"; MainPy.what := MainPy.missing |} ∈ errors.
Proof.
  assert ("ph" ∈ field_names) as Hin
    by (unfold field_names; rewrite !elem_of_cons; auto 10).
  split; [exact Hin |]. split; [reflexivity |].
  apply (missing_field_reported
           {[ "temperature" := 22.5; "humidity" := 70.0; "tds" := 600.0 ]}
           "ph" Samples.reference_world Hin).
  reflexivity.
Defined.

End Requests.

(** ** Answers *)

Section Answers.
Local Open Scope Q_scope.

(** X5: a body whose four fields are within the bounds, against a bundle
    that is in place with four feature names and whose scaler and regressor
    answer, is answered: the prediction rounded to 2 decimals by numpy
    ([np_round]), the rounded reading, the model identity and the category;
    nothing is printed. *)
Theorem valid_request_answered (body : gmap string Q) w model scaler model_info
    (t h d p : Q) (scaled : list (list Q)) (predictions : list Q) (prediction : Q) :
  body !! "temperature" = Some t → body !! "humidity" = Some h →
  body !! "tds" = Some d → body !! "ph" = Some p →
  (18.0 <= t ∧ t <= 35.0) ∧ (50.0 <= h ∧ h <= 80.0) ∧
  (400.0 <= d ∧ d <= 800.0) ∧ (6.0 <= p ∧ p <= 7.0) →
  bundle_installed w model scaler model_info →
  length (features model_info) = 4%nat →
  PyLibs.call_transform scaler
    {| PyLibs.columns := features model_info;
       PyLibs.values := [[round t 2; round h 2; round d 2; round p 2]] |}
  = Returned scaled →
  PyLibs.call_predict model scaled = Returned predictions →
  predictions !! 0%nat = Some prediction →
  MainPy.post_predict body w
  = (Returned (inr
       {| MainPy.predicted_growth_days := np_round prediction 2;
          MainPy.input_conditions :=
            {[ "temperature" := round t 2; "humidity" := round h 2;
               "tds" := round d 2; "ph" := round p 2 ]};
          MainPy.model_used := model_name model_info;
          MainPy.model_accuracy_r2 := round (test_r2 model_info) 4;
          MainPy.interpretation := MainPy.get_interpretation prediction |}), w).
Proof.
  intros Ht Hh Hd Hp ((? & ?) & (? & ?) & (? & ?) & (? & ?)) Hb Hlen Hs Hr Hfirst.
  unfold MainPy.post_predict, MainPy.PredictionInput_new.
  destruct (validated_cases _ _ _ _ _ _ validate_temperature_rounds Ht)
    as [(_ & _ & ->) | (N & _)]; [| tauto].
  destruct (validated_cases _ _ _ _ _ _ validate_humidity_rounds Hh)
    as [(_ & _ & ->) | (N & _)]; [| tauto].
  destruct (validated_cases _ _ _ _ _ _ validate_tds_rounds Hd)
    as [(_ & _ & ->) | (N & _)]; [| tauto].
  destruct (validated_cases _ _ _ _ _ _ validate_ph_rounds Hp)
    as [(_ & _ & ->) | (N & _)]; [| tauto].
  pose proof (predict_growth_days_installed w model scaler model_info
                (round t 2) (round h 2) (round d 2) (round p 2)
                scaled predictions prediction Hb Hlen Hs Hr Hfirst) as Hrun.
  pose proof (predict_Returned
                {| MainPy.temperature := round t 2; MainPy.humidity := round h 2;
                   MainPy.tds := round d 2; MainPy.ph := round p 2 |}
                w w prediction _ Hrun) as Hanswer.
  unfold mbind, Py_bind. rewrite Hanswer. reflexivity.
Qed.

Lemma valid_request_answered_witness :
  (Samples.request 22.504 70.005 600.0 6.4 !! "temperature" = Some 22.504 ∧
   Samples.request 22.504 70.005 600.0 6.4 !! "humidity" = Some 70.005 ∧
   Samples.request 22.504 70.005 600.0 6.4 !! "tds" = Some 600.0 ∧
   Samples.request 22.504 70.005 600.0 6.4 !! "ph" = Some 6.4) ∧
  ((18.0 <= 22.504 ∧ 22.504 <= 35.0) ∧ (50.0 <= 70.005 ∧ 70.005 <= 80.0) ∧
   (400.0 <= 600.0 ∧ 600.0 <= 800.0) ∧ (6.0 <= 6.4 ∧ 6.4 <= 7.0)) ∧
  bundle_installed Samples.reference_world
    Samples.linear_regressor Samples.standard_scaler Samples.reference_info ∧
  length (features Samples.reference_info) = 4%nat ∧
  PyLibs.call_transform Samples.standard_scaler
    {| PyLibs.columns := features Samples.reference_info;
       PyLibs.values := [[round 22.504 2; round 70.005 2; round 600.0 2; round 6.4 2]] |}
  = Returned [[(-250) # 500; 0.500; 0.0000; (-1000) # 5000]] ∧
  PyLibs.call_predict Samples.linear_regressor [[(-250) # 500; 0.500; 0.0000; (-1000) # 5000]]
  = Returned [187 # 10] ∧
  [187 # 10] !! 0%nat = Some (187 # 10) ∧
  MainPy.post_predict (Samples.request 22.504 70.005 600.0 6.4) Samples.reference_world
  = (Returned (inr
       {| MainPy.predicted_growth_days := np_round (187 # 10) 2;
          MainPy.input_conditions :=
            {[ "temperature" := round 22.504 2; "humidity" := round 70.005 2;
               "tds" := round 600.0 2; "ph" := round 6.4 2 ]};
          MainPy.model_used := model_name Samples.reference_info;
          MainPy.model_accuracy_r2 := round (test_r2 Samples.reference_info) 4;
          MainPy.interpretation := MainPy.get_interpretation (187 # 10) |}),
     Samples.reference_world).
Proof.
  assert (PyLibs.call_transform Samples.standard_scaler
            {| PyLibs.columns := features Samples.reference_info;
               PyLibs.values :=
                 [[round 22.504 2; round 70.005 2; round 600.0 2; round 6.4 2]] |}
          = Returned [[(-250) # 500; 0.500; 0.0000; (-1000) # 5000]]) as Hs.
  { vm_compute. reflexivity. }
  split; [repeat split; reflexivity |].
  split; [repeat split; discriminate |].
  split; [repeat split; reflexivity |].
  split; [reflexivity |].
  split; [exact Hs |].
  split; [reflexivity |].
  split; [reflexivity |].
  apply (valid_request_answered (Samples.request 22.504 70.005 600.0 6.4)
           Samples.reference_world Samples.linear_regressor Samples.standard_scaler
           Samples.reference_info 22.504 70.005 600.0 6.4
           [[(-250) # 500; 0.500; 0.0000; (-1000) # 5000]] [187 # 10] (187 # 10));
    try reflexivity; try exact Hs;
    [repeat split; discriminate | repeat split; reflexivity].
Defined.

End Answers.

(** ** Rounded answers *)

Section RoundedAnswers.
Local Open Scope Q_scope.

Lemma threshold_kept (T : Z) (threshold p : Q) :
  (- 2 ^ 52 <= T <= 2 ^ 52)%Z →
  threshold == inject_Z T / inject_Z (10 ^ Z.of_nat 2) →
  (threshold <= p → threshold <= np_round p 2) ∧
  (p <= threshold → np_round p 2 <= threshold).
Proof.
  intros HT HTe. rewrite HTe.
  split; [by apply np_round_ge | by apply np_round_le].
Qed.

(** Rounding a number of days to 2 decimals changes its category only by
    landing on 15, 25 or 35. *)
Lemma get_interpretation_round (p : Q) :
  ¬ np_round p 2 == 15 → ¬ np_round p 2 == 25 → ¬ np_round p 2 == 35 →
  MainPy.get_interpretation (np_round p 2) = MainPy.get_interpretation p.
Proof.
  intros N15 N25 N35.
  destruct (threshold_kept 1500 15 p) as [G15 L15]; [lia | reflexivity |].
  destruct (threshold_kept 2500 25 p) as [G25 L25]; [lia | reflexivity |].
  destruct (threshold_kept 3500 35 p) as [G35 L35]; [lia | reflexivity |].
  assert (∀ x y : Q, x <= y → ¬ x == y → x < y) as strict.
  { intros x y Hle Hne. destruct (Qle_lt_or_eq _ _ Hle); [assumption | contradiction]. }
  destruct (main_band_table (np_round p 2)) as (B1 & B2 & B3 & B4).
  destruct (main_get_interpretation_cases p)
    as [[H ->] | [[[H H'] ->] | [[[H H'] ->] | [H ->]]]].
  - apply B1, strict; [apply L15; lra | assumption].
  - apply B2. split; [auto |]. apply strict; [apply L25; lra | assumption].
  - apply B3. split; [auto |]. apply strict; [apply L35; lra | assumption].
  - apply B4. auto.
Qed.

(** X6: in a successful answer the category is the one of the band that
    contains the returned number of days, unless that number is exactly 15,
    25 or 35: rounding the prediction moves it across a threshold only by
    landing on it. *)
Theorem interpretation_matches_returned_days (body : gmap string Q) w w'
    (response : MainPy.PredictionOutput) :
  MainPy.post_predict body w = (Returned (inr response), w') →
  ¬ MainPy.predicted_growth_days response == 15 →
  ¬ MainPy.predicted_growth_days response == 25 →
  ¬ MainPy.predicted_growth_days response == 35 →
  MainPy.interpretation response
  = MainPy.get_interpretation (MainPy.predicted_growth_days response).
Proof.
  intros Hrun.
  apply post_predict_Returned_inv in Hrun as (input_data & _ & Hrun).
  apply predict_Returned_inv in Hrun as (prediction & result & _ & ->).
  cbn [MainPy.predicted_growth_days MainPy.interpretation].
  intros N15 N25 N35. symmetry. apply get_interpretation_round; assumption.
Qed.

Lemma interpretation_matches_returned_days_witness :
  MainPy.post_predict (Samples.request 22.5 70.0 600.0 6.4) Samples.reference_world
  = (Returned (inr
       {| MainPy.predicted_growth_days := 18.70;
          MainPy.input_conditions := Samples.request 22.50 70.00 600.00 6.40;
          MainPy.model_used := "Random Forest";
          MainPy.model_accuracy_r2 := 0.6240;
          MainPy.interpretation := "Fast growth - Good conditions" |}),
     Samples.reference_world) ∧
  (¬ 18.70 == 15 ∧ ¬ 18.70 == 25 ∧ ¬ 18.70 == 35) ∧
  "Fast growth - Good conditions" = MainPy.get_interpretation 18.70.
Proof.
  split; [vm_compute; reflexivity |].
  split; [repeat split; intros H; discriminate H |].
  apply (interpretation_matches_returned_days
           (Samples.request 22.5 70.0 600.0 6.4)
           Samples.reference_world Samples.reference_world
           {| MainPy.predicted_growth_days := 18.70;
              MainPy.input_conditions := Samples.request 22.50 70.00 600.00 6.40;
              MainPy.model_used := "Random Forest";
              MainPy.model_accuracy_r2 := 0.6240;
              MainPy.interpretation := "Fast growth - Good conditions" |});
    [vm_compute; reflexivity | | |]; intros H; discriminate H.
Defined.

(** What a successful answer comes from. *)
Lemma post_predict_success (body : gmap string Q) w w'
    (response : MainPy.PredictionOutput) :
  MainPy.post_predict body w = (Returned (inr response), w') →
  w' = w ∧
  ∃ t h d p model scaler model_info scaled predictions prediction,
    (body !! "temperature" = Some t ∧ body !! "humidity" = Some h ∧
     body !! "tds" = Some d ∧ body !! "ph" = Some p) ∧
    bundle_installed w model scaler model_info ∧
    PyLibs.call_predict model scaled = Returned predictions ∧
    predictions !! 0%nat = Some prediction ∧
    response =
      {| MainPy.predicted_growth_days := np_round prediction 2;
         MainPy.input_conditions :=
           {[ "temperature" := round t 2; "humidity" := round h 2;
              "tds" := round d 2; "ph" := round p 2 ]};
         MainPy.model_used := model_name model_info;
         MainPy.model_accuracy_r2 := round (test_r2 model_info) 4;
         MainPy.interpretation := MainPy.get_interpretation prediction |}.
Proof.
  intros Hrun.
  apply post_predict_Returned_inv in Hrun as (input_data & Hnew & Hrun).
  apply PredictionInput_new_inr in Hnew as (t & h & d & p & Hbody & _ & ->).
  apply predict_Returned_inv in Hrun as (prediction & result & Hrun & ->).
  apply predict_growth_days_Some in Hrun
    as (-> & model & scaler & model_info & scaled & predictions
        & Hb & _ & _ & Hp & H0 & ->).
  split; [reflexivity |].
  exists t, h, d, p, model, scaler, model_info, scaled, predictions, prediction.
  auto 10.
Qed.

(** X7: a successful answer is close to what it reports, up to the
    relative error [2^-50] of the floating-point operations of the two
    roundings: the returned days are within 0.005 of the regressor's
    prediction, the returned R2 score within 0.00005 of the score of the
    metadata, and each echoed condition within 0.005 of the value that was
    sent. *)
Theorem answer_within_half_a_unit (body : gmap string Q) w w'
    (response : MainPy.PredictionOutput) model scaler model_info :
  bundle_installed w model scaler model_info →
  MainPy.post_predict body w = (Returned (inr response), w') →
  (∃ scaled predictions prediction,
     PyLibs.call_predict model scaled = Returned predictions ∧
     predictions !! 0%nat = Some prediction ∧
     Qabs (MainPy.predicted_growth_days response - prediction)
     <= 0.005 + (Qabs prediction + 0.005) / 2 ^ 50) ∧
  Qabs (MainPy.model_accuracy_r2 response - test_r2 model_info)
  <= 0.00005 + (Qabs (test_r2 model_info) + 0.00005) / 2 ^ 50 ∧
  (∀ name, name ∈ field_names →
     ∃ sent echoed,
       body !! name = Some sent ∧
       MainPy.input_conditions response !! name = Some echoed ∧
       Qabs (echoed - sent) <= 0.005 + (Qabs sent + 0.005) / 2 ^ 50).
Proof.
  intros Hb Hrun.
  apply post_predict_success in Hrun
    as (_ & t & h & d & p & model' & scaler' & model_info' & scaled & predictions
        & prediction & (Ht & Hh & Hd & Hp) & Hb' & Hr & H0 & ->).
  destruct (bundle_installed_inj _ _ _ _ _ _ _ Hb Hb') as (-> & _ & ->).
  cbn [MainPy.predicted_growth_days MainPy.model_accuracy_r2 MainPy.input_conditions].
  split; [| split].
  - exists scaled, predictions, prediction. auto using np_round2_close.
  - apply round4_close.
  - intros name Hname. unfold field_names in Hname.
    rewrite !elem_of_cons, elem_of_nil in Hname.
    destruct Hname as [-> | [-> | [-> | [-> | []]]]];
      eexists _, _; (split; [eassumption |]); (split; [reflexivity |]);
      apply round2_close.
Qed.

Lemma answer_within_half_a_unit_witness :
  bundle_installed Samples.threshold_world
    (Samples.constant_regressor 14.996) Samples.standard_scaler Samples.threshold_info ∧
  MainPy.post_predict (Samples.request 22.504 70.005 600.0 6.4) Samples.threshold_world
  = (Returned (inr
       {| MainPy.predicted_growth_days := 15.00;
          MainPy.input_conditions := Samples.request 22.50 70.00 600.00 6.40;
          MainPy.model_used := "Random Forest";
          MainPy.model_accuracy_r2 := 0.6244;
          MainPy.interpretation := "Very fast growth - Excellent conditions" |}),
     Samples.threshold_world) ∧
  Qabs (0.6244 - test_r2 Samples.threshold_info)
  <= 0.00005 + (Qabs (test_r2 Samples.threshold_info) + 0.00005) / 2 ^ 50.
Proof.
  split; [repeat split; reflexivity |].
  split; [vm_compute; reflexivity |].
  apply (answer_within_half_a_unit
           (Samples.request 22.504 70.005 600.0 6.4)
           Samples.threshold_world Samples.threshold_world
           {| MainPy.predicted_growth_days := 15.00;
              MainPy.input_conditions := Samples.request 22.50 70.00 600.00 6.40;
              MainPy.model_used := "Random Forest";
              MainPy.model_accuracy_r2 := 0.6244;
              MainPy.interpretation := "Very fast growth - Excellent conditions" |}
           (Samples.constant_regressor 14.996) Samples.standard_scaler
           Samples.threshold_info);
    [repeat split; reflexivity | vm_compute; reflexivity].
Defined.

End RoundedAnswers.

(** ** Files and failures *)

Section Failures.

Ltac run_check :=
  unfold absent_files, MainPy.check_model_files, MainPy.required_files,
    MainPy.check_model_files_loop, path_exists, mbind, mret, Py_bind, Py_ret in *;
  cbn [fst snd disk stdout] in *.

Lemma check_model_files_run w :
  MainPy.check_model_files w
  = (Returned (bool_decide (absent_files w = []), absent_files w), w).
Proof.
  run_check. rewrite !filter_cons, filter_nil.
  destruct (disk w !! "best_model.pkl") as [b1|] eqn:E1;
    destruct (disk w !! "scaler.pkl") as [b2|] eqn:E2;
    destruct (disk w !! "model_info.json") as [b3|] eqn:E3; cbn;
    repeat (rewrite decide_True by done || rewrite decide_False by done);
    reflexivity.
Qed.

(** X8: [check_model_files] reads the directory without changing anything;
    the list it returns holds exactly the required files that are absent,
    in the order regressor, scaler, metadata, and its flag is true exactly
    when that list is empty, that is when the three files are there. *)
Theorem check_model_files_reports_absent_files w :
  ∃ all_exist missing_files,
    MainPy.check_model_files w = (Returned (all_exist, missing_files), w) ∧
    sublist missing_files MainPy.required_files ∧
    (∀ file, file ∈ missing_files ↔
               file ∈ MainPy.required_files ∧ disk w !! file = None) ∧
    (all_exist = true ↔ missing_files = []) ∧
    (all_exist = true ↔ ∀ file, file ∈ MainPy.required_files → is_Some (disk w !! file)).
Proof.
  exists (bool_decide (absent_files w = [])), (absent_files w).
  split; [apply check_model_files_run |].
  split; [apply sublist_filter |].
  split; [intros file; unfold absent_files; rewrite list_elem_of_filter; tauto |].
  split; [apply bool_decide_eq_true |].
  rewrite bool_decide_eq_true. unfold absent_files. split.
  - intros Hnil file Hin. destruct (disk w !! file) eqn:E; [eauto |].
    assert (file ∈ filter (λ file, disk w !! file = None) MainPy.required_files) as Hf
      by (apply list_elem_of_filter; auto).
    rewrite Hnil in Hf. by apply elem_of_nil in Hf.
  - intros Hall. apply elem_of_nil_inv. intros file Hf.
    apply list_elem_of_filter in Hf as [Hnone Hin].
    destruct (Hall file Hin) as [b Hb]. congruence.
Qed.

Lemma load_model_cases w :
  (∃ model scaler model_info,
     bundle_installed w model scaler model_info ∧
     PredictPy.load_model w = (Returned (Some (model, scaler, model_info)), w)) ∨
  (∃ path,
     first_absent w path ∧
     PredictPy.load_model w
     = (Returned None,
        printed w ("Error: Required file not found - "
                   +:+ "[Errno 2] No such file or directory: '" +:+ path +:+ "'"))) ∨
  (∃ e,
     (∀ filename, e ≠ FileNotFoundError filename) ∧
     PredictPy.load_model w = (Raised e, w)).
Proof.
  case_file w "best_model.pkl".
  - case_file w "scaler.pkl".
    + case_file w "model_info.json".
      * right. right. eexists. split; [| run_py; rewrite E, E0, E1; reflexivity]. done.
      * left. eexists _, _, _. split; [done |]. by apply load_model_installed.
      * right. left. exists "model_info.json".
        split; [eapply absent_info; eassumption |].
        apply load_model_first_absent. eapply absent_info; eassumption.
    + right. right. eexists. split; [| run_py; rewrite E, E0; reflexivity]. done.
    + right. left. exists "scaler.pkl".
      split; [eapply absent_scaler; eassumption |].
      apply load_model_first_absent. eapply absent_scaler; eassumption.
  - right. right. eexists. split; [| run_py; rewrite E; reflexivity]. done.
  - right. left. exists "best_model.pkl".
    split; [by apply absent_model |]. apply load_model_first_absent. by apply absent_model.
Qed.

(** X9: what [load_model] can do. Either the three files are present and
    deserialize, and it returns the bundle without printing; or a file is
    absent, the ones before it being readable, and it returns no bundle and
    prints one line naming that file; or it raises the error of a file it
    could not deserialize. It never raises [FileNotFoundError] and never
    writes a file. *)
Theorem load_model_outcomes w :
  (∃ model scaler model_info,
     bundle_installed w model scaler model_info ∧
     PredictPy.load_model w = (Returned (Some (model, scaler, model_info)), w)) ∨
  (∃ path,
     first_absent w path ∧
     PredictPy.load_model w
     = (Returned None,
        printed w ("Error: Required file not found - "
                   +:+ "[Errno 2] No such file or directory: '" +:+ path +:+ "'"))) ∨
  (∃ e,
     (∀ filename, e ≠ FileNotFoundError filename) ∧
     PredictPy.load_model w = (Raised e, w)).
Proof. exact (load_model_cases w). Qed.

Lemma load_model_None w w' :
  PredictPy.load_model w = (Returned None, w') → ∃ path, first_absent w path.
Proof.
  destruct (load_model_cases w)
    as [(m & s & i & _ & ->) | [(path & Ha & _) | (e & _ & ->)]];
    [discriminate | eauto | discriminate].
Qed.

End Failures.

(** ** What the handler lets through *)

Section HandlerFailures.

(** X10: [predict_growth_days] returns no prediction (the [(None, None)]
    pair) exactly when one of the three files is absent and the ones read
    before it are readable; every other failure is an exception. *)
Theorem no_prediction_iff_file_absent w (temperature humidity tds ph : Q) :
  (PredictPy.predict_growth_days temperature humidity tds ph w).1 = Returned None ↔
  ∃ path, first_absent w path.
Proof.
  split.
  - unfold_pipeline.
    destruct (PredictPy.load_model w) as [[[[[model scaler] model_info]|]|e] w1] eqn:El.
    + case_outcomes; discriminate.
    + intros _. exact (load_model_None _ _ El).
    + discriminate.
  - intros [path Ha].
    rewrite (predict_growth_days_first_absent _ _ _ _ _ _ Ha). reflexivity.
Qed.

(** X11: the handler of [/predict] lets no exception through except
    [HTTPException], with status 422 or 500; the status is 422 exactly when
    the pipeline raised a [ValueError]. The handler itself neither prints
    nor writes: it leaves the world as the pipeline left it. *)
Theorem predict_raises_only_http (input_data : MainPy.PredictionInput) w :
  (MainPy.predict input_data w).2
  = (PredictPy.predict_growth_days
       (MainPy.temperature input_data) (MainPy.humidity input_data)
       (MainPy.tds input_data) (MainPy.ph input_data) w).2 ∧
  ∀ e,
    (MainPy.predict input_data w).1 = Raised e →
    ∃ status_code detail,
      e = HTTPException status_code detail ∧
      (status_code = 422 ∨ status_code = 500)%Z ∧
      (status_code = 422%Z ↔
         ∃ msg,
           (PredictPy.predict_growth_days
              (MainPy.temperature input_data) (MainPy.humidity input_data)
              (MainPy.tds input_data) (MainPy.ph input_data) w).1
           = Raised (ValueError msg)).
Proof.
  unfold_handler.
  destruct (PredictPy.predict_growth_days _ _ _ _ w) as [[[[prediction result]|]|e0] w1];
    cbn [fst snd].
  - split; [reflexivity | discriminate].
  - split; [reflexivity |]. intros e [= <-]. eexists _, _.
    split; [reflexivity |]. split; [auto |].
    split; [discriminate | intros [msg [=]]].
  - destruct e0 as [filename | msg0 | status_code detail | msg0]; cbn [fst snd];
      (split; [reflexivity |]); intros e [= <-]; eexists _, _;
      (split; [reflexivity |]).
    + split; [auto |]. split; [discriminate | intros [msg [=]]].
    + split; [auto |]. split; [eauto | reflexivity].
    + split; [auto |]. split; [discriminate | intros [msg [=]]].
    + split; [auto |]. split; [discriminate | intros [msg [=]]].
Qed.

(** X12: when the regressor and the scaler load but [model_info.json] is
    not a JSON document, the decoding error is a [ValueError] that
    [load_model] does not catch: a request that passed validation is
    answered with status 422 and a "Validation error" detail, and nothing
    is printed. *)
Theorem undecodable_metadata_answered_422 w model scaler content
    (input_data : MainPy.PredictionInput) :
  disk w !! "best_model.pkl" = Some (Pickle model) →
  disk w !! "scaler.pkl" = Some (Pickle scaler) →
  disk w !! "model_info.json" = Some (Pickle content) →
  ∃ msg,
    PredictPy.load_model w = (Raised (ValueError msg), w) ∧
    MainPy.predict input_data w
    = (Raised (HTTPException 422 ("Validation error: " +:+ msg)), w).
Proof.
  intros Hm Hs Hi.
  assert (PredictPy.load_model w = (Raised (ValueError "JSONDecodeError"), w)) as Hl.
  { run_py. rewrite Hm. cbn. rewrite Hs. cbn. rewrite Hi. reflexivity. }
  eexists. split; [exact Hl |].
  unfold_handler. unfold_pipeline. rewrite Hl. reflexivity.
Qed.

Lemma undecodable_metadata_answered_422_witness :
  (disk Samples.metadata_not_json !! "best_model.pkl"
   = Some (Pickle Samples.linear_regressor) ∧
   disk Samples.metadata_not_json !! "scaler.pkl"
   = Some (Pickle Samples.standard_scaler) ∧
   disk Samples.metadata_not_json !! "model_info.json"
   = Some (Pickle Samples.standard_scaler)) ∧
  ∃ msg,
    PredictPy.load_model Samples.metadata_not_json
    = (Raised (ValueError msg), Samples.metadata_not_json) ∧
    MainPy.predict Samples.reference_input Samples.metadata_not_json
    = (Raised (HTTPException 422 ("Validation error: " +:+ msg)),
       Samples.metadata_not_json).
Proof.
  split; [repeat split; reflexivity |].
  apply (undecodable_metadata_answered_422 Samples.metadata_not_json
           Samples.linear_regressor Samples.standard_scaler Samples.standard_scaler
           Samples.reference_input); reflexivity.
Defined.

End HandlerFailures.

(** ** The health check *)

Section Health.

Lemma first_absent_in_absent_files w path :
  first_absent w path → path ∈ absent_files w.
Proof.
  intros Ha. unfold absent_files, MainPy.required_files.
  apply list_elem_of_filter.
  destruct Ha; (split; [assumption |]); rewrite !elem_of_cons; auto.
Qed.

Lemma load_model_all_present w :
  absent_files w = [] →
  (∃ model scaler model_info,
     bundle_installed w model scaler model_info ∧
     PredictPy.load_model w = (Returned (Some (model, scaler, model_info)), w)) ∨
  (∃ e, (¬ ∃ model scaler model_info, bundle_installed w model scaler model_info) ∧
        PredictPy.load_model w = (Raised e, w)).
Proof.
  intros Hnil.
  destruct (load_model_cases w)
    as [(m & s & i & Hb & Hl) | [(path & Ha & _) | (e & _ & Hl)]].
  - left. eauto 10.
  - apply first_absent_in_absent_files in Ha. rewrite Hnil in Ha.
    by apply elem_of_nil in Ha.
  - right. exists e. split; [| exact Hl].
    intros (m & s & i & Hb). rewrite (load_model_installed _ _ _ _ Hb) in Hl.
    discriminate.
Qed.

Lemma bundle_installed_no_absent_files w model scaler model_info :
  bundle_installed w model scaler model_info → absent_files w = [].
Proof.
  intros (Hm & Hs & Hi). unfold absent_files, MainPy.required_files.
  rewrite !filter_cons, filter_nil, Hm, Hs, Hi.
  repeat rewrite decide_False by done. reflexivity.
Qed.

Ltac run_health :=
  unfold MainPy.health_check, try_except, mbind, mret, Py_bind, Py_ret;
  rewrite check_model_files_run; cbn beta iota.

Lemma health_check_missing w :
  absent_files w ≠ [] →
  MainPy.health_check w
  = (Returned
       {| MainPy.HealthResponse.status := "unhealthy";
          MainPy.HealthResponse.model_loaded := false;
          MainPy.HealthResponse.model_name := None;
          MainPy.HealthResponse.model_accuracy := None;
          MainPy.HealthResponse.message :=
            "Missing required files: " +:+ join ", " (absent_files w) |}, w).
Proof.
  intros Hne. run_health. rewrite bool_decide_eq_false_2 by exact Hne. reflexivity.
Qed.

Lemma health_check_installed w model scaler model_info :
  bundle_installed w model scaler model_info →
  MainPy.health_check w
  = (Returned
       {| MainPy.HealthResponse.status := "healthy";
          MainPy.HealthResponse.model_loaded := true;
          MainPy.HealthResponse.model_name := Some (model_name model_info);
          MainPy.HealthResponse.model_accuracy := Some (round (test_r2 model_info) 4);
          MainPy.HealthResponse.message :=
            "API is operational and model is loaded successfully" |}, w).
Proof.
  intros Hb. run_health.
  rewrite bool_decide_eq_true_2 by exact (bundle_installed_no_absent_files _ _ _ _ Hb).
  cbn. rewrite (load_model_installed _ _ _ _ Hb). reflexivity.
Qed.

Lemma health_check_undecodable w e :
  absent_files w = [] →
  PredictPy.load_model w = (Raised e, w) →
  MainPy.health_check w
  = (Returned
       {| MainPy.HealthResponse.status := "unhealthy";
          MainPy.HealthResponse.model_loaded := false;
          MainPy.HealthResponse.model_name := None;
          MainPy.HealthResponse.model_accuracy := None;
          MainPy.HealthResponse.message := "Error loading model: " +:+ str e |}, w).
Proof.
  intros Hnil Hl. run_health. rewrite bool_decide_eq_true_2 by exact Hnil.
  cbn. rewrite Hl. reflexivity.
Qed.

(** The three ways a health check can go. *)
Lemma health_check_cases w :
  (∃ model scaler model_info,
     bundle_installed w model scaler model_info ∧
     MainPy.health_check w
     = (Returned
          {| MainPy.HealthResponse.status := "healthy";
             MainPy.HealthResponse.model_loaded := true;
             MainPy.HealthResponse.model_name := Some (model_name model_info);
             MainPy.HealthResponse.model_accuracy := Some (round (test_r2 model_info) 4);
             MainPy.HealthResponse.message :=
               "API is operational and model is loaded successfully" |}, w)) ∨
  (∃ msg,
     (¬ ∃ model scaler model_info, bundle_installed w model scaler model_info) ∧
     (msg = "Missing required files: " +:+ join ", " (absent_files w) ∨
      ∃ e, msg = "Error loading model: " +:+ str e) ∧
     MainPy.health_check w
     = (Returned
          {| MainPy.HealthResponse.status := "unhealthy";
             MainPy.HealthResponse.model_loaded := false;
             MainPy.HealthResponse.model_name := None;
             MainPy.HealthResponse.model_accuracy := None;
             MainPy.HealthResponse.message := msg |}, w)).
Proof.
  destruct (decide (absent_files w = [])) as [Hnil | Hne].
  - destruct (load_model_all_present w Hnil)
      as [(m & s & i & Hb & _) | (e & Hno & Hl)].
    + left. exists m, s, i. split; [exact Hb |]. exact (health_check_installed w m s i Hb).
    + right. eexists. split; [exact Hno |]. split; [right; eauto |].
      by apply health_check_undecodable.
  - right. eexists. split; [| split; [left; reflexivity | by apply health_check_missing]].
    intros (m & s & i & Hb). apply Hne.
    exact (bundle_installed_no_absent_files _ _ _ _ Hb).
Qed.

(** X13: the health check always answers, without raising, printing or
    writing. It answers "healthy" exactly when the three artifacts are
    present and deserialize, and then reports the model name and the R2
    score rounded to 4 decimals; [model_loaded] is true exactly for a
    healthy answer, and an unhealthy answer carries neither a name nor a
    score. *)
Theorem health_check_verdict w :
  ∃ response,
    MainPy.health_check w = (Returned response, w) ∧
    (MainPy.HealthResponse.status response = "healthy" ↔
       ∃ model scaler model_info, bundle_installed w model scaler model_info) ∧
    (MainPy.HealthResponse.model_loaded response = true ↔
       MainPy.HealthResponse.status response = "healthy") ∧
    (∀ model scaler model_info,
       bundle_installed w model scaler model_info →
       MainPy.HealthResponse.model_name response = Some (model_name model_info) ∧
       MainPy.HealthResponse.model_accuracy response
       = Some (round (test_r2 model_info) 4)) ∧
    (MainPy.HealthResponse.status response ≠ "healthy" →
       MainPy.HealthResponse.status response = "unhealthy" ∧
       MainPy.HealthResponse.model_name response = None ∧
       MainPy.HealthResponse.model_accuracy response = None).
Proof.
  destruct (health_check_cases w)
    as [(m & s & i & Hb & ->) | (msg & Hno & _ & ->)];
    eexists; (split; [reflexivity |]); cbn.
  - split; [split; [eauto | reflexivity] |].
    split; [done |].
    split; [| done].
    intros m' s' i' Hb'.
    destruct (bundle_installed_inj _ _ _ _ _ _ _ Hb Hb') as (_ & _ & ->). done.
  - split; [split; [discriminate | intros H; destruct (Hno H)] |].
    split; [split; discriminate |].
    split; [| done].
    intros m s i Hb. destruct Hno. eauto.
Qed.

(** X15: the answer "Failed to load model files" is never given: the files
    are checked before the model is loaded, so that the loader cannot come
    back without a bundle. *)
Theorem health_check_never_fails_to_load w :
  ∃ response,
    MainPy.health_check w = (Returned response, w) ∧
    MainPy.HealthResponse.message response ≠ "Failed to load model files".
Proof.
  destruct (health_check_cases w)
    as [(m & s & i & Hb & ->) | (msg & _ & [-> | [e ->]] & ->)];
    eexists; (split; [reflexivity |]); cbn; discriminate.
Qed.

(** X14: when some of the three files are absent, the health check does
    not try to load the model: it answers "unhealthy" with a message that
    lists all the absent files, in the order regressor, scaler, metadata,
    separated by a comma and a space. *)
Theorem health_check_lists_missing_files w :
  absent_files w ≠ [] →
  MainPy.health_check w
  = (Returned
       {| MainPy.HealthResponse.status := "unhealthy";
          MainPy.HealthResponse.model_loaded := false;
          MainPy.HealthResponse.model_name := None;
          MainPy.HealthResponse.model_accuracy := None;
          MainPy.HealthResponse.message :=
            "Missing required files: " +:+ join ", " (absent_files w) |}, w).
Proof. exact (health_check_missing w). Qed.

Lemma health_check_lists_missing_files_witness :
  absent_files Samples.empty_directory ≠ [] ∧
  MainPy.health_check Samples.empty_directory
  = (Returned
       {| MainPy.HealthResponse.status := "unhealthy";
          MainPy.HealthResponse.model_loaded := false;
          MainPy.HealthResponse.model_name := None;
          MainPy.HealthResponse.model_accuracy := None;
          MainPy.HealthResponse.message :=
            "Missing required files: best_model.pkl, scaler.pkl, model_info.json" |},
     Samples.empty_directory).
Proof.
  split; [vm_compute; discriminate |].
  apply (health_check_lists_missing_files Samples.empty_directory).
  vm_compute; discriminate.
Defined.

End Health.

(** ** Application startup *)

Section Startup.

Lemma printed_lines_nil w : printed_lines w [] = w.
Proof. destruct w. unfold printed_lines. cbn. by rewrite app_nil_r. Qed.

Lemma printed_lines_app w lines lines' :
  printed_lines (printed_lines w lines) lines' = printed_lines w (lines ++ lines').
Proof. unfold printed_lines. cbn. by rewrite app_assoc. Qed.

Lemma print_line line w : print line w = (Returned tt, printed_lines w [line]).
Proof. reflexivity. Qed.

(** Two computations that only print, one after the other. *)
Lemma prints_then (m k : Py unit) w lines lines' :
  m w = (Returned tt, printed_lines w lines) →
  k (printed_lines w lines)
  = (Returned tt, printed_lines (printed_lines w lines) lines') →
  (m;; k) w = (Returned tt, printed_lines w (lines ++ lines')).
Proof.
  intros Hm Hk. unfold mbind, Py_bind. rewrite Hm, Hk, printed_lines_app.
  reflexivity.
Qed.

Lemma print_then line (k : Py unit) w lines :
  k (printed_lines w [line]) = (Returned tt, printed_lines (printed_lines w [line]) lines) →
  (print line;; k) w = (Returned tt, printed_lines w (line :: lines)).
Proof.
  intros Hk. unfold mbind, Py_bind. rewrite print_line, Hk, printed_lines_app.
  reflexivity.
Qed.

Lemma for_each_print (prefix : string) (items : list string) w :
  for_each items (λ item, print (prefix +:+ item)) w
  = (Returned tt, printed_lines w (map (λ item, prefix +:+ item) items)).
Proof.
  revert w. induction items as [| item items IH]; intros w.
  - cbn. by rewrite printed_lines_nil.
  - cbn [for_each map]. apply print_then. apply IH.
Qed.

Lemma absent_files_printed w lines : absent_files (printed_lines w lines) = absent_files w.
Proof. reflexivity. Qed.

Lemma load_model_printed w lines r :
  PredictPy.load_model w = (r, w) →
  PredictPy.load_model (printed_lines w lines) = (r, printed_lines w lines).
Proof.
  intros Hl.
  pose proof (load_model_reads_disk (printed_lines w lines) w eq_refl) as Hr.
  rewrite Hl in Hr. cbn [fst] in Hr.
  destruct (load_model_cases (printed_lines w lines))
    as [(m & s & i & _ & E) | [(path & Ha & E) | (e & _ & E)]];
    rewrite E in *; cbn [fst] in Hr; subst r; try reflexivity.
  exfalso.
  assert (first_absent w path) as Ha' by (destruct Ha; econstructor; eassumption).
  rewrite (load_model_first_absent _ _ Ha') in Hl.
  injection Hl as Hl. apply (f_equal stdout) in Hl. cbn in Hl.
  apply (f_equal length) in Hl. rewrite length_app in Hl. cbn in Hl. lia.
Qed.

Lemma startup_report_exists w : ∃ lines, startup_report w lines.
Proof.
  destruct (decide (absent_files w = [])) as [Hnil | Hne].
  - destruct (load_model_all_present w Hnil)
      as [(m & s & i & Hb & _) | (e & _ & Hl)].
    + eexists. left. eauto 10.
    + eexists. right. right. eauto 10.
  - eexists. right. left. eauto.
Qed.

Lemma startup_report_run w before lines :
  startup_report w lines →
  (if bool_decide (absent_files w = []) then
     print "✓ All model files found";;
     try_except
       (loaded ← PredictPy.load_model;
        match loaded with
        | Some (model, scaler, model_info) =>
            print ("✓ Model loaded: " +:+ model_name model_info);;
            print ("✓ R² Score: " +:+ format_4f (test_r2 model_info));;
            print ("✓ Features: " +:+ pretty (length (features model_info)))
        | None => print "✗ Failed to load model"
        end)
       (λ e, Some (print ("✗ Error loading model: " +:+ str e)))
   else
     print "✗ Missing model files:";;
     for_each (absent_files w) (λ file, print ("  - " +:+ file)))
    (printed_lines w before)
  = (Returned tt, printed_lines (printed_lines w before) lines).
Proof.
  intros [(m & s & i & Hb & ->) | [(Hne & ->) | (e & Hnil & Hl & ->)]].
  - rewrite bool_decide_eq_true_2
      by exact (bundle_installed_no_absent_files _ _ _ _ Hb).
    apply print_then. rewrite !printed_lines_app.
    unfold try_except, mbind at 1, Py_bind at 1.
    rewrite (load_model_printed w _ _ (load_model_installed _ _ _ _ Hb)).
    set (w1 := printed_lines w _).
    assert ((print ("✓ Model loaded: " +:+ model_name i);;
             print ("✓ R² Score: " +:+ format_4f (test_r2 i));;
             print ("✓ Features: " +:+ pretty (length (features i)))) w1
            = (Returned tt,
               printed_lines w1
                 ["✓ Model loaded: " +:+ model_name i;
                  "✓ R² Score: " +:+ format_4f (test_r2 i);
                  "✓ Features: " +:+ pretty (length (features i))])) as ->.
    { apply print_then, print_then, print_line. }
    subst w1. rewrite printed_lines_app. reflexivity.
  - rewrite bool_decide_eq_false_2 by exact Hne.
    apply print_then. apply for_each_print.
  - rewrite bool_decide_eq_true_2 by exact Hnil.
    apply print_then. rewrite !printed_lines_app.
    unfold try_except, mbind, Py_bind.
    rewrite (load_model_printed w _ _ Hl), print_line, printed_lines_app.
    reflexivity.
Qed.

(** X16: startup never fails and never writes a file. Whatever the state
    of the model files, it prints the banner, a report and the closing
    lines, among them "API is ready to accept requests". The report is the
    model name, the R2 score with four decimals and the number of features
    when the bundle loads; the list of the absent files when some are
    absent; the error of the loader when a file does not deserialize. *)
Theorem startup_event_always_ready w :
  ∃ lines,
    startup_report w lines ∧
    MainPy.startup_event w
    = (Returned tt,
       printed_lines w
         ([times "=" 70; center " MOSS GROWTH PREDICTION API " 70 "="; times "=" 70]
          ++ lines
          ++ [times "=" 70; "API is ready to accept requests";
              "Documentation available at: /docs"; times "=" 70])).
Proof.
  destruct (startup_report_exists w) as [lines Hr]. exists lines.
  split; [exact Hr |].
  unfold MainPy.startup_event. cbn [app].
  do 3 apply print_then.
  set (w3 := printed_lines (printed_lines (printed_lines w _) _) _).
  assert (w3 = printed_lines w [times "=" 70;
                                center " MOSS GROWTH PREDICTION API " 70 "=";
                                times "=" 70]) as Hw3
    by (subst w3; rewrite !printed_lines_app; reflexivity).
  unfold mbind at 1, Py_bind at 1. rewrite check_model_files_run. cbn beta iota.
  change (absent_files w3) with (absent_files w).
  apply prints_then.
  - rewrite Hw3. apply startup_report_run. exact Hr.
  - do 3 apply print_then. apply print_line.
Qed.

Example startup_without_scaler :
  stdout (MainPy.startup_event Samples.scaler_missing).2
  = ["======================================================================";
     "===================== MOSS GROWTH PREDICTION API =====================";
     "======================================================================";
     "✗ Missing model files:";
     "  - scaler.pkl";
     "======================================================================";
     "API is ready to accept requests";
     "Documentation available at: /docs";
     "======================================================================"].
Proof. vm_compute. reflexivity. Qed.

Example startup_with_reference_bundle :
  stdout (MainPy.startup_event Samples.reference_world).2
  = ["======================================================================";
     "===================== MOSS GROWTH PREDICTION API =====================";
     "======================================================================";
     "✓ All model files found";
     "✓ Model loaded: Random Forest";
     "✓ R² Score: 0.6240";
     "✓ Features: 4";
     "======================================================================";
     "API is ready to accept requests";
     "Documentation available at: /docs";
     "======================================================================"].
Proof. vm_compute. reflexivity. Qed.

End Startup.
